(* ========================================================================= *)
(* BIM processor service: element classifier, IFC / Revit processors and    *)
(* the processing-job state machine of main.py, as a shallow embedding.     *)
(*                                                                           *)
(* Sources: src/services/bim-processor/processors/element_classifier.py,    *)
(*          processors/ifc_processor.py, processors/revit_processor.py,     *)
(*          main.py (upload_bim_model, process_bim_model, classify_element). *)
(*                                                                           *)
(* Modelling conventions.                                                    *)
(* - Python strings are ASCII strings; str.lower is ASCII lower-casing.     *)
(* - A Python dict literal used as a constant table (iteration order        *)
(*   matters for CATEGORY_KEYWORDS) is an association list in source order; *)
(*   the mutable dicts (classification cache, job store) are gmaps.         *)
(* - Coordinates (Python floats) are rationals Q; confidence scores, which  *)
(*   only ever hold the literals 0.0 0.5 0.7 1.0, are rationals too.        *)
(* - Exceptions are the [res] type; a computation that may raise returns    *)
(*   [Raise e]. External libraries (ifcopenshell, olefile, the file system) *)
(*   are an environment record whose fields may return [Raise] anywhere.    *)
(* ========================================================================= *)

From Stdlib Require Import String Ascii ZArith QArith Qminmax Lia.
From stdpp Require Import base gmap strings list pretty.

Open Scope string_scope.

(* ------------------------------------------------------------------------- *)
(* Python values and exceptions                                              *)
(* ------------------------------------------------------------------------- *)

Inductive exn :=
| IFCFileError (msg : string)
| RevitFileError (msg : string)
| HTTPException (status_code : Z) (detail : string)
| FileNotFoundError (msg : string)
| OtherError (msg : string).

Inductive res (A : Type) :=
| Ok (a : A)
| Raise (e : exn).
Arguments Ok {A} a.
Arguments Raise {A} e.

(** [str(e)] of an exception. *)
Definition exn_str (e : exn) : string :=
  match e with
  | IFCFileError m | RevitFileError m | FileNotFoundError m | OtherError m => m
  | HTTPException _ d => d
  end.

(** A value held in a properties dictionary. Values whose [str] is not
    computed here (floats, nested dicts) carry their [str] text and their
    truthiness. *)
Inductive pyval :=
| VStr (s : string)
| VInt (z : Z)
| VBool (b : bool)
| VNone
| VOther (repr : string) (truthy : bool).

Definition py_truthy (v : pyval) : bool :=
  match v with
  | VStr s => negb (String.eqb s "")
  | VInt z => negb (Z.eqb z 0)
  | VBool b => b
  | VNone => false
  | VOther _ t => t
  end.

Definition py_str (v : pyval) : string :=
  match v with
  | VStr s => s
  | VInt z => pretty z
  | VBool true => "True"
  | VBool false => "False"
  | VNone => "None"
  | VOther r _ => r
  end.

(** A properties dictionary, in insertion order. *)
Definition props := list (string * pyval).

(** [f"{x}"] of an [Optional[str]]. *)
Definition opt_str (o : option string) : string :=
  match o with Some s => s | None => "None" end.

(** Truthiness of an [Optional[str]]. *)
Definition opt_str_truthy (o : option string) : bool :=
  match o with Some s => negb (String.eqb s "") | None => false end.

(* ------------------------------------------------------------------------- *)
(* String helpers: str.lower, `in`, str.endswith, str.join                   *)
(* ------------------------------------------------------------------------- *)

Definition ascii_lower (c : ascii) : ascii :=
  let n := nat_of_ascii c in
  if (65 <=? n)%nat && (n <=? 90)%nat then ascii_of_nat (n + 32) else c.

Fixpoint lower (s : string) : string :=
  match s with
  | EmptyString => EmptyString
  | String c t => String (ascii_lower c) (lower t)
  end.

(** Python's [needle in hay] on strings. *)
Fixpoint str_in (needle hay : string) : bool :=
  String.prefix needle hay ||
  match hay with
  | EmptyString => false
  | String _ t => str_in needle t
  end.

Definition endswith (s suffix : string) : bool :=
  let n := String.length s in
  let m := String.length suffix in
  (m <=? n)%nat && String.eqb (substring (n - m) m s) suffix.

Fixpoint str_join (sep : string) (l : list string) : string :=
  match l with
  | [] => ""
  | [x] => x
  | x :: t => x ++ sep ++ str_join sep t
  end.

(** Python [int(s)] on a string: surrounding whitespace, an optional sign,
    decimal digits with single underscores between digits. *)
Definition py_space (c : ascii) : bool :=
  let n := nat_of_ascii c in
  ((9 <=? n)%nat && (n <=? 13)%nat) || ((28 <=? n)%nat && (n <=? 32)%nat).

Fixpoint lstrip (s : string) : string :=
  match s with
  | String c t => if py_space c then lstrip t else s
  | EmptyString => EmptyString
  end.

Fixpoint str_rev (s : string) (acc : string) : string :=
  match s with
  | EmptyString => acc
  | String c t => str_rev t (String c acc)
  end.

Definition strip (s : string) : string :=
  str_rev (lstrip (str_rev (lstrip s) EmptyString)) EmptyString.

Definition digit_val (c : ascii) : option Z :=
  let n := nat_of_ascii c in
  if (48 <=? n)%nat && (n <=? 57)%nat then Some (Z.of_nat n - 48)%Z else None.

(** Digits with underscores allowed only between two digits; [acc] is the
    value read so far and [after_digit] whether the last char was a digit. *)
Fixpoint parse_digits (s : string) (acc : Z) (after_digit : bool) : option Z :=
  match s with
  | EmptyString => if after_digit then Some acc else None
  | String c t =>
      if Ascii.eqb c "_" then
        match t with
        | String c' _ =>
            if after_digit && bool_decide (is_Some (digit_val c'))
            then parse_digits t acc false else None
        | EmptyString => None
        end
      else match digit_val c with
           | Some d => parse_digits t (acc * 10 + d)%Z true
           | None => None
           end
  end.

Definition py_int (s : string) : option Z :=
  match strip s with
  | String "-" t => option_map Z.opp (parse_digits t 0 false)
  | String "+" t => parse_digits t 0 false
  | t => parse_digits t 0 false
  end.

(* ------------------------------------------------------------------------- *)
(* models.py: ElementCategory                                                *)
(* ------------------------------------------------------------------------- *)

Inductive ElementCategory :=
| WALL | FLOOR | COLUMN | BEAM | ROOF | DOOR | WINDOW | STAIR | RAILING
| FOUNDATION | SLAB | OTHER.

#[global] Instance ElementCategory_eq_dec : EqDecision ElementCategory.
Proof. solve_decision. Defined.

Definition cat_eqb (a b : ElementCategory) : bool := bool_decide (a = b).

(** Lookup in a constant dict: [d.get(k)]. *)
Fixpoint assoc_get {K V} (eqb : K -> K -> bool) (k : K) (d : list (K * V))
  : option V :=
  match d with
  | [] => None
  | (k', v) :: t => if eqb k k' then Some v else assoc_get eqb k t
  end.

(* ------------------------------------------------------------------------- *)
(* element_classifier.py: ElementClassifier                                  *)
(* ------------------------------------------------------------------------- *)

Module ElementClassifier.

Definition IFC_TYPE_MAPPING : list (string * ElementCategory) := [
  ("IfcWall", WALL); ("IfcWallStandardCase", WALL); ("IfcCurtainWall", WALL);
  ("IfcSlab", FLOOR); ("IfcSlabStandardCase", FLOOR);
  ("IfcColumn", COLUMN); ("IfcColumnStandardCase", COLUMN);
  ("IfcBeam", BEAM); ("IfcBeamStandardCase", BEAM);
  ("IfcRoof", ROOF);
  ("IfcDoor", DOOR); ("IfcDoorStandardCase", DOOR);
  ("IfcWindow", WINDOW); ("IfcWindowStandardCase", WINDOW);
  ("IfcStair", STAIR); ("IfcStairFlight", STAIR);
  ("IfcRailing", RAILING); ("IfcRailingType", RAILING);
  ("IfcFooting", FOUNDATION); ("IfcPile", FOUNDATION);
  ("IfcCovering", OTHER);
  ("IfcBuildingElementProxy", OTHER)].

Definition REVIT_CATEGORY_MAPPING : list (Z * ElementCategory) := [
  ((-2000011)%Z, WALL); ((-2000032)%Z, FLOOR); ((-2000038)%Z, SLAB);
  ((-2000100)%Z, COLUMN); ((-2000012)%Z, BEAM); ((-2000035)%Z, ROOF);
  ((-2000023)%Z, DOOR); ((-2000014)%Z, WINDOW); ((-2000120)%Z, STAIR);
  ((-2000126)%Z, RAILING); ((-2000080)%Z, FOUNDATION);
  ((-2000175)%Z, FOUNDATION)].

Definition CATEGORY_KEYWORDS : list (ElementCategory * list string) := [
  (WALL, ["wall"; "partition"; "curtain"]);
  (FLOOR, ["floor"; "slab"; "deck"]);
  (COLUMN, ["column"; "post"; "pillar"]);
  (BEAM, ["beam"; "girder"; "joist"; "truss"]);
  (ROOF, ["roof"; "roofing"]);
  (DOOR, ["door"; "entry"; "gate"]);
  (WINDOW, ["window"; "glazing"]);
  (STAIR, ["stair"; "step"]);
  (RAILING, ["railing"; "handrail"; "guardrail"; "balustrade"]);
  (FOUNDATION, ["foundation"; "footing"; "pile"; "pier"])].

Definition ifc_type_get (t : string) : option ElementCategory :=
  assoc_get String.eqb t IFC_TYPE_MAPPING.

Definition revit_category_get (z : Z) : option ElementCategory :=
  assoc_get Z.eqb z REVIT_CATEGORY_MAPPING.

(** The two nested [for] loops over [CATEGORY_KEYWORDS]: the first category
    one of whose keywords occurs in [text]. *)
Fixpoint first_keyword_hit (text : string)
    (table : list (ElementCategory * list string)) : ElementCategory :=
  match table with
  | [] => OTHER
  | (cat, kws) :: t =>
      if existsb (fun kw => str_in kw text) kws then cat
      else first_keyword_hit text t
  end.

(** [_classify_by_properties]:
    [" ".join(str(v).lower() for v in properties.values() if v)]. *)
Definition property_text (properties : props) : string :=
  str_join " " (map (fun kv => lower (py_str kv.2))
                    (filter (fun kv => py_truthy kv.2) properties)).

Definition _classify_by_properties (properties : props) : ElementCategory :=
  first_keyword_hit (property_text properties) CATEGORY_KEYWORDS.

Definition _classify_by_name (name : string) : ElementCategory :=
  if String.eqb name "" then OTHER
  else first_keyword_hit (lower name) CATEGORY_KEYWORDS.

(** Truthiness of an [Optional[Dict]] argument. *)
Definition props_given (o : option props) : bool :=
  match o with Some (_ :: _) => true | _ => false end.

Definition the_props (o : option props) : props :=
  match o with Some p => p | None => [] end.

Definition the_str (o : option string) : string :=
  match o with Some s => s | None => "" end.

(** The classifier's only state: [self._classification_cache]. *)
Abbreviation cache := (gmap string ElementCategory).

Definition ifc_cache_key (ifc_type : string) (family_name : option string)
  : string := "ifc:" ++ ifc_type ++ ":" ++ opt_str family_name.

Definition opt_int_str (o : option Z) : string :=
  match o with Some z => pretty z | None => "None" end.

Definition revit_cache_key (category_id : option Z)
    (category_name family_name : option string) : string :=
  "revit:" ++ opt_int_str category_id ++ ":" ++ opt_str category_name
  ++ ":" ++ opt_str family_name.

(** [classify_ifc_element], statement by statement. *)
Definition classify_ifc_element (c : cache) (ifc_type : string)
    (properties : option props) (family_name : option string)
  : ElementCategory * cache :=
  let cache_key := ifc_cache_key ifc_type family_name in
  match c !! cache_key with
  | Some cat => (cat, c)
  | None =>
    let primary :=
      match ifc_type_get ifc_type with
      | Some cat => if negb (cat_eqb cat OTHER) then Some cat else None
      | None => None
      end in
    match primary with
    | Some cat => (cat, <[cache_key := cat]> c)
    | None =>
      let by_props :=
        if props_given properties
        then let cat := _classify_by_properties (the_props properties) in
             if negb (cat_eqb cat OTHER) then Some cat else None
        else None in
      match by_props with
      | Some cat => (cat, <[cache_key := cat]> c)
      | None =>
        let by_name :=
          if opt_str_truthy family_name
          then let cat := _classify_by_name (the_str family_name) in
               if negb (cat_eqb cat OTHER) then Some cat else None
          else None in
        match by_name with
        | Some cat => (cat, <[cache_key := cat]> c)
        | None => (OTHER, <[cache_key := OTHER]> c)
        end
      end
    end
  end.

(** [classify_revit_element], statement by statement. *)
Definition classify_revit_element (c : cache) (category_id : option Z)
    (category_name : option string) (properties : option props)
    (family_name : option string) : ElementCategory * cache :=
  let cache_key := revit_cache_key category_id category_name family_name in
  match c !! cache_key with
  | Some cat => (cat, c)
  | None =>
    let by_id :=
      match category_id with
      | Some i => revit_category_get i
      | None => None
      end in
    match by_id with
    | Some cat => (cat, <[cache_key := cat]> c)
    | None =>
      let by_cname :=
        if opt_str_truthy category_name
        then let cat := _classify_by_name (the_str category_name) in
             if negb (cat_eqb cat OTHER) then Some cat else None
        else None in
      match by_cname with
      | Some cat => (cat, <[cache_key := cat]> c)
      | None =>
        let by_props :=
          if props_given properties
          then let cat := _classify_by_properties (the_props properties) in
               if negb (cat_eqb cat OTHER) then Some cat else None
          else None in
        match by_props with
        | Some cat => (cat, <[cache_key := cat]> c)
        | None =>
          let by_fname :=
            if opt_str_truthy family_name
            then let cat := _classify_by_name (the_str family_name) in
                 if negb (cat_eqb cat OTHER) then Some cat else None
            else None in
          match by_fname with
          | Some cat => (cat, <[cache_key := cat]> c)
          | None => (OTHER, <[cache_key := OTHER]> c)
          end
        end
      end
    end
  end.

(** Float [<] on the confidence literals. *)
Definition Q_ltb (a b : Q) : bool := negb (Qle_bool b a).

(** [get_classification_confidence]. *)
Definition get_classification_confidence (element_type : string)
    (category : ElementCategory) (properties : option props) : Q :=
  let confidence := 0%Q in
  let confidence :=
    match ifc_type_get element_type with
    | Some c => if cat_eqb c category then 1%Q else confidence
    | None => confidence
    end in
  let confidence :=
    if Q_ltb confidence 1 then
      match py_int element_type with
      | Some cat_id =>
          match revit_category_get cat_id with
          | Some c => if cat_eqb c category then 1%Q else confidence
          | None => confidence
          end
      | None => confidence
      end
    else confidence in
  let confidence :=
    if props_given properties && Q_ltb confidence 1 then
      if cat_eqb (_classify_by_properties (the_props properties)) category
      then Qmax confidence (7 # 10) else confidence
    else confidence in
  if Qeq_bool confidence 0 then (1 # 2)%Q else confidence.

(** [get_classification_metadata]: the pair
    (["classification_method"], ["confidence"]); [element_type] is an
    [Optional[str]], [int()] raises ValueError where [py_int] gives [None]. *)
Definition get_classification_metadata (category : ElementCategory)
    (element_type : option string) (properties : option props) : string * Q :=
  let metadata := ("unknown", 0%Q) in
  let metadata :=
    if opt_str_truthy element_type then
      let et := the_str element_type in
      if bool_decide (is_Some (ifc_type_get et)) then ("ifc_type_mapping", 1%Q)
      else if String.prefix "-" et then
        match py_int et with
        | Some cat_id =>
            if bool_decide (is_Some (revit_category_get cat_id))
            then ("revit_category_mapping", 1%Q) else metadata
        | None => metadata
        end
      else metadata
    else metadata in
  let metadata :=
    if Qeq_bool metadata.2 0 && props_given properties then
      if cat_eqb (_classify_by_properties (the_props properties)) category
      then ("property_based", (7 # 10)%Q) else metadata
    else metadata in
  if Qeq_bool metadata.2 0 then ("name_based", (1 # 2)%Q) else metadata.

Definition clear_cache (c : cache) : cache := ∅.

End ElementClassifier.

(* ------------------------------------------------------------------------- *)
(* main.py: the classify_element endpoint                                    *)
(* ------------------------------------------------------------------------- *)

Record ClassificationRequest := {
  req_element_type : string;
  req_file_type : string;
  req_category_id : option Z;
  req_category_name : option string;
  req_properties : option props;
  req_family_name : option string }.

(** [classify_element]: the category and the confidence of the response,
    with the global classifier's cache threaded through. *)
Definition classify_element (c : ElementClassifier.cache)
    (request : ClassificationRequest)
  : res (ElementCategory * Q) * ElementClassifier.cache :=
  let ft := lower (req_file_type request) in
  let classified :=
    if String.eqb ft "ifc" then
      Some (ElementClassifier.classify_ifc_element c (req_element_type request)
              (req_properties request) (req_family_name request))
    else if String.eqb ft "revit" then
      Some (ElementClassifier.classify_revit_element c
              (req_category_id request) (req_category_name request)
              (req_properties request) (req_family_name request))
    else None in
  match classified with
  | None =>
      (Raise (HTTPException 400 ("Unsupported file type: " ++ req_file_type request
               ++ ". Must be 'ifc' or 'revit'")), c)
  | Some (category, c') =>
      let element_type_for_metadata :=
        match req_category_id request with
        | Some z => if String.eqb ft "revit" then pretty z
                    else req_element_type request
        | None => req_element_type request
        end in
      let confidence :=
        ElementClassifier.get_classification_confidence
          element_type_for_metadata category (req_properties request) in
      (Ok (category, confidence), c')
  end.

(** The [classify_element] response as a whole: category, ["confidence"],
    ["classification_method"] and the metadata's own ["confidence"]. *)
Record ClassificationResponse := mkClassificationResponse {
  resp_category : ElementCategory;
  resp_confidence : Q;
  resp_method : string;
  resp_metadata_confidence : Q }.

Definition classify_element_response (c : ElementClassifier.cache)
    (request : ClassificationRequest)
  : res ClassificationResponse * ElementClassifier.cache :=
  let ft := lower (req_file_type request) in
  let classified :=
    if String.eqb ft "ifc" then
      Some (ElementClassifier.classify_ifc_element c (req_element_type request)
              (req_properties request) (req_family_name request))
    else if String.eqb ft "revit" then
      Some (ElementClassifier.classify_revit_element c
              (req_category_id request) (req_category_name request)
              (req_properties request) (req_family_name request))
    else None in
  match classified with
  | None =>
      (Raise (HTTPException 400 ("Unsupported file type: " ++ req_file_type request
               ++ ". Must be 'ifc' or 'revit'")), c)
  | Some (category, c') =>
      let element_type_for_metadata :=
        match req_category_id request with
        | Some z => if String.eqb ft "revit" then pretty z
                    else req_element_type request
        | None => req_element_type request
        end in
      let metadata :=
        ElementClassifier.get_classification_metadata category
          (Some element_type_for_metadata) (req_properties request) in
      let confidence :=
        ElementClassifier.get_classification_confidence
          element_type_for_metadata category (req_properties request) in
      (Ok (mkClassificationResponse category confidence metadata.1 metadata.2), c')
  end.

(* ------------------------------------------------------------------------- *)
(* Spec-side vocabulary for the classification cascade                       *)
(* ------------------------------------------------------------------------- *)

Module Cascade.
Import ElementClassifier.



(** The exact table maps the given type or code to [cat]. *)
Definition exact_hit (element_type : string) (cat : ElementCategory) : bool :=
  match ifc_type_get element_type with
  | Some c => cat_eqb c cat
  | None => false
  end ||
  match py_int element_type with
  | Some z => match revit_category_get z with
              | Some c => cat_eqb c cat
              | None => false
              end
  | None => false
  end.


End Cascade.

(* ------------------------------------------------------------------------- *)
(* models.py: Geometry, BoundingBox, Element                                 *)
(* ------------------------------------------------------------------------- *)

Inductive GeometryType := SOLID | SURFACE | CURVE.

(** A point {x, y, z} (a vertex [[x, y, z]] or a bounding-box corner). *)
Record Vec3 := mkVec3 { vx : Q; vy : Q; vz : Q }.

Record BoundingBox := mkBoundingBox { bb_min : Vec3; bb_max : Vec3 }.

Record Geometry := mkGeometry {
  g_type : GeometryType;
  g_bounding_box : BoundingBox;
  g_vertices : list Vec3;
  g_faces : list (list Z) }.

(** [Element]; [created_at] (a wall-clock timestamp) is left out. *)
Record Element := mkElement {
  el_id : string;
  el_model_id : string;
  el_external_id : string;
  el_category : ElementCategory;
  el_family_name : option string;
  el_type_name : option string;
  el_level : option string;
  el_geometry : Geometry;
  el_properties : props;
  el_material_ids : list string }.

(** An axis of a point, for stating per-axis properties. *)
Inductive axis := AxisX | AxisY | AxisZ.

Definition coord (i : axis) (v : Vec3) : Q :=
  match i with AxisX => vx v | AxisY => vy v | AxisZ => vz v end.

(* ------------------------------------------------------------------------- *)
(* ifc_processor.py: _calculate_bounding_box                                 *)
(* ------------------------------------------------------------------------- *)

Definition origin : Vec3 := mkVec3 0 0 0.

(** numpy's [verts_array.min(axis=0)] / [.max(axis=0)] along one axis. *)
Definition np_min (x0 : Q) (rest : list Q) : Q := fold_left Qmin rest x0.
Definition np_max (x0 : Q) (rest : list Q) : Q := fold_left Qmax rest x0.

(** Python's builtin [min(xs)] / [max(xs)]: keep the first element, replace
    it by an item strictly smaller (larger). *)
Definition py_min (x0 : Q) (rest : list Q) : Q :=
  fold_left (fun acc x => if ElementClassifier.Q_ltb x acc then x else acc) rest x0.
Definition py_max (x0 : Q) (rest : list Q) : Q :=
  fold_left (fun acc x => if ElementClassifier.Q_ltb acc x then x else acc) rest x0.

Definition _calculate_bounding_box (NUMPY_AVAILABLE : bool)
    (vertices : list Vec3) : BoundingBox :=
  match vertices with
  | [] => mkBoundingBox origin origin
  | v :: vs =>
      if NUMPY_AVAILABLE then
        mkBoundingBox
          (mkVec3 (np_min (vx v) (map vx vs)) (np_min (vy v) (map vy vs))
                  (np_min (vz v) (map vz vs)))
          (mkVec3 (np_max (vx v) (map vx vs)) (np_max (vy v) (map vy vs))
                  (np_max (vz v) (map vz vs)))
      else
        mkBoundingBox
          (mkVec3 (py_min (vx v) (map vx vs)) (py_min (vy v) (map vy vs))
                  (py_min (vz v) (map vz vs)))
          (mkVec3 (py_max (vx v) (map vx vs)) (py_max (vy v) (map vy vs))
                  (py_max (vz v) (map vz vs)))
  end.

(* ------------------------------------------------------------------------- *)
(* State, exceptions and the environment                                     *)
(* ------------------------------------------------------------------------- *)

Inductive ProcessingStatus := UPLOADING | PROCESSING | READY | ERROR.

(** A job of [processing_status_store]; [created_at] / [completed_at] hold
    the timestamp text. *)
Record Job := mkJob {
  j_model_id : string;
  j_project_id : string;
  j_file_name : string;
  j_file_size : Z;
  j_file_type : string;
  j_file_path : string;
  j_status : ProcessingStatus;
  j_progress : Z;
  j_error_message : option string;
  j_elements_processed : Z;
  j_created_at : string;
  j_completed_at : option string }.

(** A state-and-exception monad over a state [S]: a Python statement
    sequence that mutates [S] and may raise. *)
Definition StM (S A : Type) := S -> res A * S.

Definition ret {S A} (a : A) : StM S A := fun s => (Ok a, s).
Definition raise {S A} (e : exn) : StM S A := fun s => (Raise e, s).
Definition bind {S A B} (m : StM S A) (k : A -> StM S B) : StM S B :=
  fun s => match m s with
           | (Ok a, s') => k a s'
           | (Raise e, s') => (Raise e, s')
           end.
(** [try: m except Exception as e: h(e)]. *)
Definition try_except {S A} (m : StM S A) (h : exn -> StM S A) : StM S A :=
  fun s => match m s with
           | (Raise e, s') => h e s'
           | r => r
           end.
Definition lift {S A} (r : res A) : StM S A := fun s => (r, s).

Notation "x <- m ;; k" := (bind m (fun x => k))
  (at level 100, m at level 99, k at level 100, right associativity).
Notation "m ;;; k" := (bind m (fun _ => k))
  (at level 100, k at level 100, right associativity).

(** The state the processors touch: the global classifier's cache and the
    uuid4 generator. *)
Record PSt := mkPSt {
  ps_cache : ElementClassifier.cache;
  ps_uuid : nat }.

Abbreviation M := (StM PSt).

Definition uuid4 : M string :=
  fun s => (Ok ("uuid-" ++ pretty (ps_uuid s)), mkPSt (ps_cache s) (S (ps_uuid s))).

(** The global classifier ([get_classifier()]) used through the state. *)
Definition with_cache {A} (f : ElementClassifier.cache -> A * ElementClassifier.cache)
  : M A :=
  fun s => let (a, c') := f (ps_cache s) in (Ok a, mkPSt c' (ps_uuid s)).

Record FileStat := mkFileStat { fs_is_file : bool; fs_size : Z }.

(** An IFC entity of a building-element type, as the processor sees it:
    [ie_properties], [ie_type_name], [ie_level] and [ie_material_ids] are
    the results of the guarded helpers [_extract_properties],
    [_get_element_type_name], [_get_element_level] and [_get_material_ids]
    (which catch their own exceptions); [ie_shape] is the outcome of
    [ifcopenshell.geom.create_shape] (flat [verts] and [faces]);
    [ie_fault] an exception raised while assembling the [Element]. *)
Record IfcElement := mkIfcElement {
  GlobalId : string;
  is_a : string;
  ie_properties : props;
  ie_type_name : option string;
  ie_level : option string;
  ie_material_ids : list string;
  ie_shape : res (list Q * list Z);
  ie_fault : option exn }.

(** An opened IFC file: [by_type] for the building-element types, and the
    outcome of reading the first IfcProject (Name, Description, LongName),
    IfcApplication (ApplicationFullName, Version), IfcPerson (GivenName,
    FamilyName) and IfcOrganization (Name), [None] when there is none. *)
Record IfcFile := mkIfcFile {
  schema : string;
  by_type : string -> res (list IfcElement);
  ifc_project : res (option (option string * option string * option string));
  ifc_application : res (option (option string * option string));
  ifc_person : res (option (option string * option string));
  ifc_organization : res (option (option string)) }.

(** [ole.get_metadata()] of an OLE container. *)
Record OleMeta := mkOleMeta {
  om_title : option string;
  om_subject : option string;
  om_author : option string;
  om_created : option string;
  om_modified : option string }.

(** The outside world: the file system, the optional libraries and their
    behaviour on each path. *)
Record Env := mkEnv {
  env_fs : string -> option FileStat;
  IFCOPENSHELL_AVAILABLE : bool;
  NUMPY_AVAILABLE : bool;
  ifcopenshell_open : string -> res IfcFile;
  OLEFILE_AVAILABLE : bool;
  olefile_isOleFile : string -> res bool;
  (** [olefile.OleFileIO(path)] then [get_metadata()]: [None] when falsy *)
  olefile_metadata : string -> res (option OleMeta);
  (** [ole.listdir()]: the number of streams *)
  olefile_listdir : string -> res Z;
  utc_now : string }.

Section Paths.
Variable env : Env.

(** [Path(p).exists()] on a file system that answers every query: the
    model has no [OSError] of [stat()] and no change of the files between
    two calls. *)
Definition path_exists (p : string) : bool := bool_decide (is_Some (env_fs env p)).

(** [Path(p).stat().st_size] *)
Definition path_size (p : string) : res Z :=
  match env_fs env p with
  | Some st => Ok (fs_size st)
  | None => Raise (FileNotFoundError
                     ("[Errno 2] No such file or directory: '" ++ p ++ "'"))
  end.
End Paths.

(** [Path(p).name]: the text after the last '/'. *)
Fixpoint basename_acc (s acc : string) : string :=
  match s with
  | EmptyString => acc
  | String c t =>
      if Ascii.eqb c "/" then basename_acc t "" else basename_acc t (acc ++ String c "")
  end.
Definition basename (p : string) : string := basename_acc p "".

(** [Path(p).stem]: the name without its last suffix (a leading dot does
    not start a suffix). *)
Fixpoint last_dot (s : string) (i : nat) (found : option nat) : option nat :=
  match s with
  | EmptyString => found
  | String c t =>
      last_dot t (S i) (if Ascii.eqb c "." && negb (Nat.eqb i 0) then Some i else found)
  end.
Definition stem (p : string) : string :=
  let n := basename p in
  match last_dot n 0 None with
  | Some i => if Nat.eqb (S i) (String.length n) then n else substring 0 i n
  | None => n
  end.

(** [dict.get(k, default)] on a dict in insertion order. *)
Definition dict_get (d : props) (k : string) (default : pyval) : pyval :=
  match assoc_get String.eqb k d with Some v => v | None => default end.

(** [x or ""] for an optional text attribute. *)
Definition or_empty (o : option string) : pyval :=
  match o with Some s => if String.eqb s "" then VStr "" else VStr s | None => VStr "" end.

(** [x.isoformat() if x else None] *)
Definition or_none (o : option string) : pyval :=
  match o with Some s => VStr s | None => VNone end.

(* ------------------------------------------------------------------------- *)
(* ifc_processor.py: IFCProcessor                                            *)
(* ------------------------------------------------------------------------- *)

Module IFCProcessor.
Section WithEnv.
Variable env : Env.

(** The keys of [IFCProcessor.CATEGORY_MAPPING], in order. *)
Definition CATEGORY_MAPPING_keys : list string :=
  ["IfcWall"; "IfcWallStandardCase"; "IfcSlab"; "IfcColumn"; "IfcBeam";
   "IfcRoof"; "IfcDoor"; "IfcWindow"; "IfcStair"; "IfcStairFlight";
   "IfcRailing"; "IfcFooting"; "IfcPile"].

Definition can_process (file_path : string) : bool :=
  endswith (lower file_path) ".ifc".

Definition validate_file (file_path : string) : bool * option string :=
  if negb (IFCOPENSHELL_AVAILABLE env) then (false, Some "IfcOpenShell library not available")
  else match env_fs env file_path with
  | None => (false, Some ("File not found: " ++ file_path))
  | Some st =>
    if negb (fs_is_file st) then (false, Some ("Path is not a file: " ++ file_path))
    else if Z.eqb (fs_size st) 0 then (false, Some "File is empty")
    else if negb (can_process file_path)
    then (false, Some "Not a valid IFC file (must have .ifc extension)")
    else match ifcopenshell_open env file_path with
         | Raise e => (false, Some ("Cannot open IFC file: " ++ exn_str e))
         | Ok ifc_file =>
             if String.eqb (schema ifc_file) "" then (false, Some "IFC file has no valid schema")
             else (true, None)
         end
  end.

(** [_get_building_elements]: a type whose [by_type] raises is skipped. *)
Definition _get_building_elements (ifc_file : IfcFile) : list IfcElement :=
  flat_map (fun t => match by_type ifc_file t with Ok l => l | Raise _ => [] end)
           CATEGORY_MAPPING_keys.

(** [for i in range(0, len(xs), 3): out.append([xs[i], xs[i+1], xs[i+2]])];
    [None] for the IndexError of a trailing partial triple. *)
Fixpoint triples {A} (xs : list A) : option (list (A * A * A)) :=
  match xs with
  | [] => Some []
  | a :: b :: c :: t => option_map (cons (a, b, c)) (triples t)
  | _ => None
  end.

(** [_extract_geometry]: any exception gives [None]. *)
Definition _extract_geometry (ifc_element : IfcElement) : option Geometry :=
  match ie_shape ifc_element with
  | Raise _ => None
  | Ok (verts, faces_data) =>
      match triples verts, triples faces_data with
      | Some vs, Some fs =>
          let vertices := map (fun '(x, y, z) => mkVec3 x y z) vs in
          let faces := map (fun '(a, b, c) => [a; b; c]) fs in
          Some (mkGeometry SOLID
                  (_calculate_bounding_box (NUMPY_AVAILABLE env) vertices)
                  vertices faces)
      | _, _ => None
      end
  end.

(** [_classify_element]: the global classifier on the entity's type,
    properties and type name. *)
Definition _classify_element (ifc_element : IfcElement) : M ElementCategory :=
  with_cache (fun c =>
    ElementClassifier.classify_ifc_element c (is_a ifc_element)
      (Some (ie_properties ifc_element)) (ie_type_name ifc_element)).

Definition _process_ifc_element (ifc_element : IfcElement) (model_id : string)
  : M (option Element) :=
  category <- _classify_element ifc_element ;;
  let properties := ie_properties ifc_element in
  match _extract_geometry ifc_element with
  | None => ret None
  | Some geometry =>
      let level := ie_level ifc_element in
      id <- uuid4 ;;
      match ie_fault ifc_element with
      | Some e => raise e
      | None =>
          ret (Some (mkElement id model_id (GlobalId ifc_element) category
                       (Some (is_a ifc_element)) (ie_type_name ifc_element) level
                       geometry properties (ie_material_ids ifc_element)))
      end
  end.

(** The [for ifc_element in building_elements] loop with its per-element
    [try ... except Exception: continue]. *)
Fixpoint process_each (bes : list IfcElement) (model_id : string)
    (elements : list Element) : M (list Element) :=
  match bes with
  | [] => ret elements
  | ifc_element :: rest =>
      r <- try_except
             (_process_ifc_element ifc_element model_id)
             (fun _ => ret None) ;;
      process_each rest model_id
        (match r with Some element => app elements [element] | None => elements end)
  end.

Definition extract_elements (file_path model_id : string) : M (list Element) :=
  if negb (IFCOPENSHELL_AVAILABLE env)
  then raise (IFCFileError "IfcOpenShell library not available")
  else
    let '(is_valid, error_msg) := validate_file file_path in
    if negb is_valid then raise (IFCFileError (opt_str error_msg))
    else
      try_except
        (ifc_file <- lift (ifcopenshell_open env file_path) ;;
         let building_elements := _get_building_elements ifc_file in
         process_each building_elements model_id [])
        (fun e => raise (IFCFileError ("Error processing IFC file: " ++ exn_str e))).

(** The body of [get_project_info]'s [try] block. *)
Definition project_info_body (file_path : string) : res props :=
  match ifcopenshell_open env file_path with
  | Raise e => Raise e
  | Ok ifc_file =>
  match path_size env file_path with
  | Raise e => Raise e
  | Ok size =>
  let info := [("schema", VStr (schema ifc_file));
               ("file_name", VStr (basename file_path));
               ("file_size", VInt size)] in
  match ifc_project ifc_file with
  | Raise e => Raise e
  | Ok pr =>
  let info := match pr with
              | Some (n, d, l) =>
                  app info [("project_name", or_empty n);
                           ("project_description", or_empty d);
                           ("project_long_name", or_empty l)]
              | None => info
              end in
  match ifc_application ifc_file with
  | Raise e => Raise e
  | Ok ap =>
  let info := match ap with
              | Some (a, v) => app info [("application", or_empty a); ("version", or_empty v)]
              | None => info
              end in
  match ifc_person ifc_file with
  | Raise e => Raise e
  | Ok pe =>
  let info := match pe with
              | Some (g, f) =>
                  app info [("author", VStr (strip (ElementClassifier.the_str g ++ " "
                                                   ++ ElementClassifier.the_str f)))]
              | None => info
              end in
  match ifc_organization ifc_file with
  | Raise e => Raise e
  | Ok og =>
  Ok (match og with
      | Some n => app info [("organization", or_empty n)]
      | None => info
      end)
  end end end end end end.

Definition get_project_info (file_path : string) : res props :=
  if negb (IFCOPENSHELL_AVAILABLE env) then Ok []
  else match project_info_body file_path with
       | Ok info => Ok info
       | Raise _ => Ok []
       end.

Definition get_software_version (file_path : string) : res string :=
  match get_project_info file_path with
  | Raise e => Raise e
  | Ok project_info =>
      let application := dict_get project_info "application" (VStr "") in
      let version := dict_get project_info "version" (VStr "") in
      let schema := dict_get project_info "schema" (VStr "") in
      Ok (if py_truthy application && py_truthy version
          then py_str application ++ " " ++ py_str version ++ " (IFC " ++ py_str schema ++ ")"
          else if py_truthy schema then "IFC " ++ py_str schema
          else "IFC (version unknown)")
  end.

(** An entity that [_process_ifc_element] turns into an [Element]: its
    geometry is extracted and nothing raises while the record is built. *)
Definition element_ok (ifc_element : IfcElement) : bool :=
  match _extract_geometry ifc_element, ie_fault ifc_element with
  | Some _, None => true
  | _, _ => false
  end.

End WithEnv.
End IFCProcessor.

(* ------------------------------------------------------------------------- *)
(* revit_processor.py: RevitProcessor                                        *)
(* ------------------------------------------------------------------------- *)

Module RevitProcessor.
Section WithEnv.
Variable env : Env.

Definition can_process (file_path : string) : bool :=
  if negb (endswith (lower file_path) ".rvt") then false
  else if OLEFILE_AVAILABLE env then
    match olefile_isOleFile env file_path with
    | Ok b => b
    | Raise _ => false
    end
  else true.

Definition validate_file (file_path : string) : bool * option string :=
  match env_fs env file_path with
  | None => (false, Some ("File not found: " ++ file_path))
  | Some st =>
    if negb (fs_is_file st) then (false, Some ("Path is not a file: " ++ file_path))
    else if Z.eqb (fs_size st) 0 then (false, Some "File is empty")
    else if negb (can_process file_path) then (false, Some "Not a valid Revit file format")
    else (true, None)
  end.

(** [_extract_file_metadata]: the [stat()] for "file_size" is outside the
    [try]; the OLE part is inside it. *)
Definition _extract_file_metadata (file_path : string) : res props :=
  match path_size env file_path with
  | Raise e => Raise e
  | Ok size =>
    let metadata := [("file_name", VStr (basename file_path)); ("file_size", VInt size)] in
    if negb (OLEFILE_AVAILABLE env) then Ok metadata
    else
      match olefile_metadata env file_path with
      | Raise _ => Ok metadata
      | Ok meta =>
          let metadata :=
            match meta with
            | Some m =>
                app metadata [("title", or_empty (om_title m));
                              ("subject", or_empty (om_subject m));
                              ("author", or_empty (om_author m));
                              ("created", or_none (om_created m));
                              ("modified", or_none (om_modified m))]
            | None => metadata
            end in
          match olefile_listdir env file_path with
          | Raise _ => Ok metadata
          | Ok n => Ok (app metadata [("stream_count", VInt n)])
          end
      end
  end.

Definition sample_categories : list (ElementCategory * string * string) := [
  (WALL, "Basic Wall", "Generic - 200mm");
  (FLOOR, "Floor", "Generic - 300mm");
  (COLUMN, "Structural Column", "300x300mm");
  (BEAM, "Structural Framing", "W12x26");
  (DOOR, "Single Door", "0915 x 2134mm");
  (WINDOW, "Fixed Window", "1200 x 1500mm")].

(** The [dimensions] table of [_create_geometry_for_category]. *)
Definition dimensions (category : ElementCategory) : Q * Q * Q :=
  match category with
  | WALL => (5, 1 # 5, 3)
  | FLOOR => (10, 10, 3 # 10)
  | COLUMN => (3 # 10, 3 # 10, 3)
  | BEAM => (5, 3 # 10, 1 # 2)
  | DOOR => (9 # 10, 1 # 10, 21 # 10)
  | WINDOW => (6 # 5, 1 # 10, 3 # 2)
  | _ => (1, 1, 1)
  end%Q.

Definition _create_geometry_for_category (category : ElementCategory)
    (position : Q * Q * Q) : Geometry :=
  let '(x, y, z) := position in
  let '(dx, dy, dz) := dimensions category in
  mkGeometry SOLID
    (mkBoundingBox (mkVec3 x y z) (mkVec3 (x + dx) (y + dy) (z + dz)))
    [mkVec3 x y z; mkVec3 (x + dx) y z; mkVec3 (x + dx) (y + dy) z;
     mkVec3 x (y + dy) z; mkVec3 x y (z + dz); mkVec3 (x + dx) y (z + dz);
     mkVec3 (x + dx) (y + dy) (z + dz); mkVec3 x (y + dy) (z + dz)]
    [[0; 1; 2; 3]; [4; 5; 6; 7]; [0; 1; 5; 4]; [2; 3; 7; 6]; [0; 3; 7; 4];
     [1; 2; 6; 5]]%Z.

(** [str] of a float holding an integer value. *)
Definition int_float_repr (z : Z) : string := pretty z ++ ".0".

(** A float literal of the source, by its [str]. *)
Definition vfloat (repr : string) : pyval := VOther repr true.

Definition _create_properties_for_category (category : ElementCategory)
    (family_name type_name : string) (position : Z * Z * Z) : props :=
  let '(x, y, z) := position in
  let common :=
    [("Family", VStr family_name); ("Type", VStr type_name);
     ("Location", VOther ("{'X': " ++ int_float_repr x ++ ", 'Y': " ++ int_float_repr y
                          ++ ", 'Z': " ++ int_float_repr z ++ "}") true);
     ("Phase Created", VStr "New Construction"); ("Phase Demolished", VStr "None")] in
  app common
  match category with
  | WALL => [("Length", vfloat "5.0"); ("Height", vfloat "3.0"); ("Thickness", vfloat "0.2");
             ("Area", vfloat "15.0"); ("Volume", vfloat "3.0"); ("Function", VStr "Exterior")]
  | FLOOR => [("Area", vfloat "100.0"); ("Thickness", vfloat "0.3");
              ("Volume", vfloat "30.0"); ("Perimeter", vfloat "40.0")]
  | COLUMN => [("Height", vfloat "3.0"); ("Width", vfloat "0.3"); ("Depth", vfloat "0.3");
               ("Volume", vfloat "0.27")]
  | BEAM => [("Length", vfloat "5.0"); ("Width", vfloat "0.3"); ("Height", vfloat "0.5");
             ("Volume", vfloat "0.75")]
  | DOOR => [("Width", vfloat "0.915"); ("Height", vfloat "2.134");
             ("Thickness", vfloat "0.044"); ("Fire Rating", VStr "1 Hour")]
  | WINDOW => [("Width", vfloat "1.2"); ("Height", vfloat "1.5"); ("Sill Height", vfloat "0.9");
               ("Glazing Area", vfloat "1.8")]
  | _ => []
  end.

(** [_create_element] with [category_id=None]; the position is integral in
    every call. *)
Definition _create_element (model_id external_id : string) (category : ElementCategory)
    (family_name type_name level : string) (position : Z * Z * Z) : M Element :=
  element_id <- uuid4 ;;
  let '(x, y, z) := position in
  let geometry := _create_geometry_for_category category (inject_Z x, inject_Z y, inject_Z z) in
  let properties := _create_properties_for_category category family_name type_name position in
  ret (mkElement element_id model_id external_id category (Some family_name)
         (Some type_name) (Some level) geometry properties []).

Fixpoint create_samples (idx : nat) (cats : list (ElementCategory * string * string))
    (model_id : string) : M (list Element) :=
  match cats with
  | [] => ret []
  | (category, family, type_name) :: rest =>
      let i := Z.of_nat idx in
      element <- _create_element model_id ("element_" ++ pretty (i + 1)%Z) category family
                   type_name ("Level " ++ pretty (Z.modulo i 3 + 1)%Z)
                   (i * 5, 0, Z.modulo i 3 * 3)%Z ;;
      elements <- create_samples (S idx) rest model_id ;;
      ret (element :: elements)
  end.

Definition _create_sample_elements (model_id file_path : string) : M (list Element) :=
  create_samples 0 sample_categories model_id.

Definition extract_elements (file_path model_id : string) : M (list Element) :=
  let '(is_valid, error_msg) := validate_file file_path in
  if negb is_valid then raise (RevitFileError (opt_str error_msg))
  else
    try_except
      (metadata <- lift (_extract_file_metadata file_path) ;;
       _create_sample_elements model_id file_path)
      (fun e => raise (RevitFileError ("Error processing Revit file: " ++ exn_str e))).

Definition get_software_version (file_path : string) : res string :=
  match _extract_file_metadata file_path with
  | Raise e => Raise e
  | Ok metadata => Ok (py_str (dict_get metadata "software_version"
                                 (VStr "Revit (version unknown)")))
  end.

Definition get_project_info (file_path : string) : res props :=
  match _extract_file_metadata file_path with
  | Raise e => Raise e
  | Ok metadata =>
      let title := dict_get metadata "title" VNone in
      Ok [("project_name", if py_truthy title then title else VStr (stem file_path));
          ("project_number", dict_get metadata "subject" (VStr ""));
          ("author", dict_get metadata "author" (VStr ""));
          ("created", dict_get metadata "created" VNone);
          ("modified", dict_get metadata "modified" VNone);
          ("file_size", dict_get metadata "file_size" (VInt 0))]
  end.

End WithEnv.
End RevitProcessor.

(* ------------------------------------------------------------------------- *)
(* main.py: the job store, upload_bim_model and process_bim_model            *)
(* ------------------------------------------------------------------------- *)

Module Main.

(** The service state: [processing_status_store], the log of every write
    to one of its jobs (the job after the write, oldest first), and the
    processors' state. *)
Record Service := mkService {
  sv_jobs : gmap string Job;
  sv_log : list (string * Job);
  sv_proc : PSt }.

Abbreviation JM := (StM Service).

Definition run_proc {A} (m : M A) : JM A :=
  fun s => let (r, ps') := m (sv_proc s) in (r, mkService (sv_jobs s) (sv_log s) ps').

Definition get_jobs : JM (gmap string Job) := fun s => (Ok (sv_jobs s), s).

(** [processing_status_store[model_id] = job] *)
Definition put_job (model_id : string) (job : Job) : JM unit :=
  fun s => (Ok tt, mkService (<[model_id := job]> (sv_jobs s))
                             (app (sv_log s) [(model_id, job)]) (sv_proc s)).

(** One assignment [job["key"] = value] to the job [model_id]; [job] is the
    store's own dict, so the write is a write to the store. *)
Definition set_job (model_id : string) (f : Job -> Job) : JM unit :=
  fun s => match sv_jobs s !! model_id with
           | Some j => put_job model_id (f j) s
           | None => (Ok tt, s)
           end.

Definition set_status (v : ProcessingStatus) (j : Job) : Job :=
  mkJob (j_model_id j) (j_project_id j) (j_file_name j) (j_file_size j) (j_file_type j)
    (j_file_path j) v (j_progress j) (j_error_message j) (j_elements_processed j)
    (j_created_at j) (j_completed_at j).
Definition set_progress (v : Z) (j : Job) : Job :=
  mkJob (j_model_id j) (j_project_id j) (j_file_name j) (j_file_size j) (j_file_type j)
    (j_file_path j) (j_status j) v (j_error_message j) (j_elements_processed j)
    (j_created_at j) (j_completed_at j).
Definition set_error_message (v : option string) (j : Job) : Job :=
  mkJob (j_model_id j) (j_project_id j) (j_file_name j) (j_file_size j) (j_file_type j)
    (j_file_path j) (j_status j) (j_progress j) v (j_elements_processed j)
    (j_created_at j) (j_completed_at j).
Definition set_elements_processed (v : Z) (j : Job) : Job :=
  mkJob (j_model_id j) (j_project_id j) (j_file_name j) (j_file_size j) (j_file_type j)
    (j_file_path j) (j_status j) (j_progress j) (j_error_message j) v
    (j_created_at j) (j_completed_at j).
Definition set_completed_at (v : string) (j : Job) : Job :=
  mkJob (j_model_id j) (j_project_id j) (j_file_name j) (j_file_size j) (j_file_type j)
    (j_file_path j) (j_status j) (j_progress j) (j_error_message j)
    (j_elements_processed j) (j_created_at j) (Some v).

Definition upload_bim_model (env : Env) (project_id file_path file_type : string)
  : JM string :=
  try_except
    (if negb (String.eqb (lower file_type) "revit" || String.eqb (lower file_type) "ifc")
     then raise (HTTPException 400 ("Unsupported file type: " ++ file_type
                                    ++ ". Must be 'revit' or 'ifc'"))
     else if negb (path_exists env file_path)
     then raise (HTTPException 404 ("File not found: " ++ file_path))
     else
       model_id <- run_proc uuid4 ;;
       file_size <- lift (path_size env file_path) ;;
       put_job model_id
         (mkJob model_id project_id (basename file_path) file_size (lower file_type)
            file_path PROCESSING 0 None 0 (utc_now env) None) ;;;
       file_size' <- lift (path_size env file_path) ;;
       ret model_id)
    (fun e => match e with
              | HTTPException _ _ => raise e
              | _ => raise (HTTPException 500 ("Upload error: " ++ exn_str e))
              end).

(** What [process_bim_model] uses of a processor object. *)
Record Processor := mkProcessor {
  validate_file_of : string -> res (bool * option string);
  extract_elements_of : string -> string -> M (list Element);
  get_project_info_of : string -> res props;
  get_software_version_of : string -> res string }.

Definition ifc_processor (env : Env) : Processor :=
  mkProcessor (fun p => Ok (IFCProcessor.validate_file env p))
    (IFCProcessor.extract_elements env) (IFCProcessor.get_project_info env)
    (IFCProcessor.get_software_version env).

Definition revit_processor (env : Env) : Processor :=
  mkProcessor (fun p => Ok (RevitProcessor.validate_file env p))
    (RevitProcessor.extract_elements env) (RevitProcessor.get_project_info env)
    (RevitProcessor.get_software_version env).

(** [if file_type == 'ifc': IFCProcessor() elif file_type == 'revit': ...] *)
Definition select_processor (env : Env) (file_type : string) : option Processor :=
  if String.eqb file_type "ifc" then Some (ifc_processor env)
  else if String.eqb file_type "revit" then Some (revit_processor env)
  else None.

(** The [except] handlers' [if model_id in processing_status_store: ...]. *)
Definition mark_error (model_id msg : string) : JM unit :=
  set_job model_id (set_status ERROR) ;;;
  set_job model_id (set_error_message (Some msg)).

(** [process_bim_model], for any way [select] of choosing the processor by
    the job's file type; [now] is [datetime.now(timezone.utc).isoformat()]. *)
Definition process_with (select : string -> option Processor) (now : string)
    (model_id : string) : JM (list Element) :=
  try_except
    (jobs <- get_jobs ;;
     match jobs !! model_id with
     | None => raise (HTTPException 404 ("Model not found: " ++ model_id))
     | Some job =>
       let file_path := j_file_path job in
       let file_type := j_file_type job in
       set_job model_id (set_status PROCESSING) ;;;
       set_job model_id (set_progress 10) ;;;
       match select file_type with
       | None => raise (HTTPException 400 ("Unsupported file type: " ++ file_type))
       | Some processor =>
         set_job model_id (set_progress 20) ;;;
         v <- lift (validate_file_of processor file_path) ;;
         let '(is_valid, error_msg) := v in
         if negb is_valid then
           set_job model_id (set_status ERROR) ;;;
           set_job model_id (set_error_message error_msg) ;;;
           raise (HTTPException 400 ("Invalid file: " ++ opt_str error_msg))
         else
           set_job model_id (set_progress 30) ;;;
           elements <- run_proc (extract_elements_of processor file_path model_id) ;;
           set_job model_id (set_progress 80) ;;;
           set_job model_id (set_elements_processed (Z.of_nat (length elements))) ;;;
           set_job model_id (set_progress 90) ;;;
           project_info <- lift (get_project_info_of processor file_path) ;;
           software_version <- lift (get_software_version_of processor file_path) ;;
           set_job model_id (set_status READY) ;;;
           set_job model_id (set_progress 100) ;;;
           set_job model_id (set_completed_at now) ;;;
           ret elements
       end
     end)
    (fun e => match e with
              | HTTPException _ _ => raise e
              | IFCFileError m | RevitFileError m =>
                  mark_error model_id m ;;; raise (HTTPException 422 m)
              | _ => mark_error model_id (exn_str e) ;;;
                     raise (HTTPException 500 ("Processing error: " ++ exn_str e))
              end).

Definition process_bim_model (env : Env) (model_id : string) : JM (list Element) :=
  process_with (select_processor env) (utc_now env) model_id.

(** The progress values written to job [model_id], in order. *)
Definition progress_trace (model_id : string) (log : list (string * Job)) : list Z :=
  map (fun kj => j_progress kj.2) (filter (fun kj => String.eqb kj.1 model_id) log).

Fixpoint nondecreasing (l : list Z) : bool :=
  match l with
  | x :: ((y :: _) as t) => Z.leb x y && nondecreasing t
  | _ => true
  end.

(** The job after the ten writes of a successful [process_bim_model]. *)
Definition final_job (now : string) (n : nat) (job : Job) : Job :=
  set_completed_at now (set_progress 100 (set_status READY (set_progress 90
    (set_elements_processed (Z.of_nat n) (set_progress 80 (set_progress 30
      (set_progress 20 (set_progress 10 (set_status PROCESSING job))))))))).

(** The fatal file-format errors of the processors. *)
Definition is_file_format_error (e : exn) : bool :=
  match e with IFCFileError _ | RevitFileError _ => true | _ => false end.

End Main.

(* ------------------------------------------------------------------------- *)
(* main.py: verify_token, get_processing_status, process_revit_file and     *)
(* process_ifc_file                                                          *)
(* ------------------------------------------------------------------------- *)

Module Endpoints.
Import Main.

(** Python's [s.replace(old, new)] for a non-empty [old]: left to right,
    non-overlapping; [fuel] bounds the number of characters consumed. *)
Fixpoint replace_go (fuel : nat) (old new s : string) : string :=
  match fuel with
  | O => s
  | S f =>
      match s with
      | EmptyString => EmptyString
      | String c t =>
          if String.prefix old s
          then new ++ replace_go f old new
                        (substring (String.length old)
                           (String.length s - String.length old) s)
          else String c (replace_go f old new t)
      end
  end.

Definition str_replace (s old new : string) : string :=
  replace_go (String.length s) old new s.

(** [verify_token]; the [WWW-Authenticate] header of the 401 is left out. *)
Definition verify_token (authorization : option string) : res string :=
  if negb (opt_str_truthy authorization) then
    Raise (HTTPException 401 "Missing authorization header")
  else
    let authorization := ElementClassifier.the_str authorization in
    if negb (String.prefix "Bearer " authorization) then
      Raise (HTTPException 401 "Invalid authorization header format. Expected: Bearer <token>")
    else
      let token := str_replace authorization "Bearer " "" in
      if String.eqb token "" || (String.length token <? 10)%nat then
        Raise (HTTPException 401 "Invalid token")
      else Ok token.

(** The body of the [get_processing_status] response. *)
Record StatusResponse := mkStatusResponse {
  st_model_id : string;
  st_processing_status : ProcessingStatus;
  st_progress : Z;
  st_elements_processed : Z;
  st_error_message : option string;
  st_created_at : option string;
  st_completed_at : option string }.

Definition get_processing_status (model_id : string) : JM StatusResponse :=
  fun s =>
    match sv_jobs s !! model_id with
    | None => (Raise (HTTPException 404 ("Model not found: " ++ model_id)), s)
    | Some job =>
        (Ok (mkStatusResponse model_id (j_status job) (j_progress job)
               (j_elements_processed job) (j_error_message job)
               (Some (j_created_at job)) (j_completed_at job)), s)
    end.

(** The body of the [process_revit_file] / [process_ifc_file] response;
    ["processing_time_seconds"] (a wall-clock measure) is left out. *)
Record FileResponse := mkFileResponse {
  fr_model_id : string;
  fr_elements_count : Z;
  fr_software_version : string;
  fr_project_info : props;
  fr_elements : list Element }.

(** The common body of the two endpoints: [kind] is "Revit" or "IFC" and
    [is_format_error] recognises the processor's own exception class. *)
Definition process_file (kind : string) (processor : Processor)
    (is_format_error : exn -> bool) (file_path model_id : string) : M FileResponse :=
  try_except
    (v <- lift (validate_file_of processor file_path) ;;
     let '(is_valid, error_msg) := v in
     if negb is_valid then
       raise (HTTPException 400 ("Invalid " ++ kind ++ " file: " ++ opt_str error_msg))
     else
       elements <- extract_elements_of processor file_path model_id ;;
       project_info <- lift (get_project_info_of processor file_path) ;;
       software_version <- lift (get_software_version_of processor file_path) ;;
       ret (mkFileResponse model_id (Z.of_nat (length elements)) software_version
              project_info elements))
    (fun e => match e with
              | HTTPException _ _ => raise e
              | _ => if is_format_error e then raise (HTTPException 422 (exn_str e))
                     else raise (HTTPException 500 ("Internal server error: " ++ exn_str e))
              end).

Definition is_revit_error (e : exn) : bool :=
  match e with RevitFileError _ => true | _ => false end.
Definition is_ifc_error (e : exn) : bool :=
  match e with IFCFileError _ => true | _ => false end.

Definition process_revit_file (env : Env) (file_path model_id : string) : M FileResponse :=
  process_file "Revit" (revit_processor env) is_revit_error file_path model_id.

Definition process_ifc_file (env : Env) (file_path model_id : string) : M FileResponse :=
  process_file "IFC" (ifc_processor env) is_ifc_error file_path model_id.

End Endpoints.

(* ------------------------------------------------------------------------- *)
(* A concrete environment: an IFC model with ten walls, one of which has no  *)
(* usable geometry, and a Revit file; no other path exists.                  *)
(* ------------------------------------------------------------------------- *)

Module Demo.

(** A triangle for [create_shape]: flat [verts] and [faces]. *)
Definition triangle_shape : res (list Q * list Z) :=
  Ok ([0; 0; 0; 1; 0; 0; 1; 1; 0]%Q, [0; 1; 2]%Z).

Definition wall (i : nat) (shape : res (list Q * list Z)) : IfcElement :=
  mkIfcElement ("wall-" ++ pretty i) "IfcWall" [("Name", VStr "Wall")]
    (Some "Basic Wall") (Some "Level 1") [] shape None.

(** Ten walls; the fifth has an odd vertex buffer ([create_shape] gives a
    trailing partial triple), so [_extract_geometry] fails for it. *)
Definition walls : list IfcElement :=
  map (fun i => wall i triangle_shape) [0; 1; 2; 3]%nat ++
  [wall 4 (Ok ([0; 0; 0; 1]%Q, [0; 1; 2]%Z))] ++
  map (fun i => wall i triangle_shape) [5; 6; 7; 8; 9]%nat.

Definition ifc_model : IfcFile :=
  mkIfcFile "IFC4"
    (fun t => if String.eqb t "IfcWall" then Ok walls else Ok [])
    (Ok (Some (Some "Demo", None, None))) (Ok (Some (Some "Modeler", Some "1.0")))
    (Ok None) (Ok None).

Definition env : Env :=
  mkEnv
    (fun p => if String.eqb p "/data/model.ifc" then Some (mkFileStat true 1000)
              else if String.eqb p "/data/model.rvt" then Some (mkFileStat true 2048)
              else None)
    true true
    (fun p => if String.eqb p "/data/model.ifc" then Ok ifc_model
              else Raise (OtherError ("Unable to open file " ++ p)))
    false
    (fun _ => Ok false) (fun _ => Ok None) (fun _ => Ok 0%Z)
    "2026-01-01T00:00:00+00:00".

(** The service before any upload. *)
Definition empty_service : Main.Service :=
  Main.mkService empty [] (mkPSt empty 0).

(** The service after uploading "/data/model.ifc", and after processing it. *)
Definition ifc_uploaded : Main.Service :=
  snd (Main.upload_bim_model env "p1" "/data/model.ifc" "IFC" empty_service).
Definition ifc_processed : Main.Service :=
  snd (Main.process_bim_model env "uuid-0" ifc_uploaded).
Definition ifc_result : res (list Element) :=
  fst (Main.process_bim_model env "uuid-0" ifc_uploaded).

Definition ifc_elements : list Element :=
  match ifc_result with Ok l => l | Raise _ => [] end.

(** The job "uuid-0" as [upload_bim_model] creates it. *)
Definition ifc_job : Job :=
  mkJob "uuid-0" "p1" "model.ifc" 1000 "ifc" "/data/model.ifc" PROCESSING 0 None 0
    "2026-01-01T00:00:00+00:00" None.

(** The same job processed a second time. *)
Definition ifc_reprocessed : Main.Service :=
  snd (Main.process_bim_model env "uuid-0" ifc_processed).

(** A processor that accepts every file and whose extractor then fails. *)
Definition failing_processor : Main.Processor :=
  Main.mkProcessor (fun _ => Ok (true, None))
    (fun p _ => raise (IFCFileError ("Unable to parse " ++ p)))
    (fun _ => Ok []) (fun _ => Ok "IFC4").

Definition revit_wall_request : ClassificationRequest :=
  {| req_element_type := "Basic Wall"; req_file_type := "Revit";
     req_category_id := Some (-2000011)%Z; req_category_name := None;
     req_properties := Some [("Type", VStr "beam")]; req_family_name := None |}.

Definition proxy_beam_request : ClassificationRequest :=
  {| req_element_type := "IfcBuildingElementProxy"; req_file_type := "IFC";
     req_category_id := None; req_category_name := None;
     req_properties := Some [("Type", VStr "beam")]; req_family_name := None |}.

(** A job whose file has gone from the disk since its upload. *)
Definition missing_job : Job :=
  mkJob "m-1" "p1" "gone.ifc" 0 "ifc" "/data/gone.ifc" PROCESSING 0 None 0
    "2026-01-01T00:00:00+00:00" None.
Definition missing_job_service : Main.Service :=
  Main.mkService (<["m-1" := missing_job]> empty) [] (mkPSt empty 0).

End Demo.

(* ========================================================================= *)
(* Theorems                                                                  *)
(* ========================================================================= *)

Module ClassifierFacts.
Import ElementClassifier Cascade.







(** On a cache hit, the stored value is returned and the cache is unchanged. *)
Lemma classify_ifc_hit (c : cache) t p f cat :
  c !! ifc_cache_key t f = Some cat ->
  classify_ifc_element c t p f = (cat, c).
Proof. intros H. unfold classify_ifc_element. rewrite H. done. Qed.

Lemma classify_ifc_cache_after (c : cache) t p f :
  (classify_ifc_element c t p f).2 =
  <[ifc_cache_key t f := (classify_ifc_element c t p f).1]> c
  \/ c !! ifc_cache_key t f = Some (classify_ifc_element c t p f).1
     /\ (classify_ifc_element c t p f).2 = c.
Proof.
  unfold classify_ifc_element.
  destruct (c !! ifc_cache_key t f) as [cat|] eqn:H; [right; done|left].
  cbv zeta.
  destruct (ifc_type_get t) as [cat|];
    [destruct (cat_eqb cat OTHER); simpl|];
    destruct (props_given p), (cat_eqb (_classify_by_properties (the_props p)) OTHER),
      (opt_str_truthy f), (cat_eqb (_classify_by_name (the_str f)) OTHER); done.
Qed.

End ClassifierFacts.

Module ClassifierClaims.
Import ElementClassifier Cascade ClassifierFacts.













(** C6. The confidence score is 1.0 when the exact type table or the exact
    category-code table maps the given type or code to the assigned category,
    else 0.7 when the property keywords give the assigned category, else 0.5;
    the two examples of the specification through the classify endpoint. *)
Theorem classification_confidence_levels :
  (forall (element_type : string) (category : ElementCategory)
          (properties : option props),
     get_classification_confidence element_type category properties =
     if exact_hit element_type category then 1%Q
     else if props_given properties
             && cat_eqb (_classify_by_properties (the_props properties)) category
     then (7 # 10)%Q
     else (1 # 2)%Q) /\
  (classify_element ∅ {| req_element_type := "IfcBuildingElementProxy";
       req_file_type := "ifc"; req_category_id := None;
       req_category_name := None;
       req_properties := Some [("Type", VStr "beam")];
       req_family_name := None |}).1 = Ok (BEAM, 7 # 10)%Q /\
  (classify_element ∅ {| req_element_type := "FamilyInstance";
       req_file_type := "revit"; req_category_id := None;
       req_category_name := None; req_properties := None;
       req_family_name := Some "Basic Wall" |}).1 = Ok (WALL, 1 # 2)%Q.
Proof.
  split; [|split; vm_compute; reflexivity].
  intros et cat p. unfold get_classification_confidence, exact_hit. cbv zeta.
  destruct (ifc_type_get et) as [c|]; [destruct (cat_eqb c cat)|]; simpl;
    (destruct (py_int et) as [z|];
       [destruct (revit_category_get z) as [c'|]; [destruct (cat_eqb c' cat)|]|]);
    destruct (props_given p), (cat_eqb (_classify_by_properties (the_props p)) cat);
    reflexivity.
Qed.

(** C1 (cache key). The cache key of classify_ifc is (ifc_type, family_name)
    only: a call that differs from a cached one only in its properties gets
    the cached category, while the same call after [clear_cache] gets the
    category its own properties select. *)
Theorem classify_ifc_cache_ignores_properties :
  let props_beam := Some [("Type", VStr "beam")] in
  let props_door := Some [("Type", VStr "door")] in
  let first := classify_ifc_element ∅ "IfcBuildingElementProxy" props_beam None in
  first.1 = BEAM /\
  (classify_ifc_element first.2 "IfcBuildingElementProxy" props_door None).1 = BEAM /\
  (classify_ifc_element (clear_cache first.2) "IfcBuildingElementProxy"
     props_door None).1 = DOOR.
Proof. vm_compute. repeat split. Qed.

End ClassifierClaims.

Module GeometryClaims.

Section FoldSelect.
Variable R : Q -> Q -> Prop.
Hypothesis R_refl : forall a, R a a.
Hypothesis R_trans : forall a b c, R a b -> R b c -> R a c.
Variable sel : Q -> Q -> Q.
Hypothesis sel_bound : forall a b, R (sel a b) a /\ R (sel a b) b.
Hypothesis sel_choice : forall a b, sel a b = a \/ sel a b = b.

Lemma fold_select_bound (l : list Q) (x0 : Q) :
  R (fold_left sel l x0) x0 /\ forall y, In y l -> R (fold_left sel l x0) y.
Proof.
  revert x0. induction l as [|x l IH]; intros x0; simpl.
  - split; [apply R_refl | done].
  - destruct (IH (sel x0 x)) as [H1 H2]. destruct (sel_bound x0 x) as [Ha Hb].
    split; [eauto|]. intros y [<-|Hy]; eauto.
Qed.

Lemma fold_select_choice (l : list Q) (x0 : Q) :
  fold_left sel l x0 = x0 \/ In (fold_left sel l x0) l.
Proof.
  revert x0. induction l as [|x l IH]; intros x0; simpl; [by left|].
  destruct (IH (sel x0 x)) as [H|H]; [|by right; right].
  rewrite H. destruct (sel_choice x0 x) as [->| ->]; [by left | by right; left].
Qed.

End FoldSelect.

Lemma Qle_trans' a b c : Qle a b -> Qle b c -> Qle a c.
Proof. apply Qle_trans. Qed.

Lemma Qge_trans' a b c : Qle b a -> Qle c b -> Qle c a.
Proof. intros H1 H2. eapply Qle_trans; eauto. Qed.

Lemma Qmin_choice a b : Qmin a b = a \/ Qmin a b = b.
Proof. unfold Qmin, GenericMinMax.gmin. destruct (a ?= b)%Q; auto. Qed.

Lemma Qmax_choice a b : Qmax a b = a \/ Qmax a b = b.
Proof. unfold Qmax, GenericMinMax.gmax. destruct (a ?= b)%Q; auto. Qed.

Lemma py_min_sel_bound acc x :
  Qle (if ElementClassifier.Q_ltb x acc then x else acc) acc /\
  Qle (if ElementClassifier.Q_ltb x acc then x else acc) x.
Proof.
  unfold ElementClassifier.Q_ltb. destruct (Qle_bool acc x) eqn:E; simpl.
  - apply Qle_bool_iff in E. split; [apply Qle_refl | done].
  - assert (~ Qle acc x) as Hn by (intros H; apply Qle_bool_iff in H; congruence).
    apply Qnot_le_lt in Hn. split; [apply Qlt_le_weak; done | apply Qle_refl].
Qed.

Lemma py_max_sel_bound acc x :
  Qle acc (if ElementClassifier.Q_ltb acc x then x else acc) /\
  Qle x (if ElementClassifier.Q_ltb acc x then x else acc).
Proof.
  unfold ElementClassifier.Q_ltb. destruct (Qle_bool x acc) eqn:E; simpl.
  - apply Qle_bool_iff in E. split; [apply Qle_refl | done].
  - assert (~ Qle x acc) as Hn by (intros H; apply Qle_bool_iff in H; congruence).
    apply Qnot_le_lt in Hn. split; [apply Qlt_le_weak; done | apply Qle_refl].
Qed.

Lemma if_choice (b : bool) (x y : Q) : (if b then x else y) = y \/ (if b then x else y) = x.
Proof. destruct b; auto. Qed.

(** The minimum and maximum along one axis, for both code paths. *)
Lemma axis_min_max (numpy : bool) (v : Vec3) (vs : list Vec3) (i : axis) :
  let bb := _calculate_bounding_box numpy (v :: vs) in
  (forall w, In w (v :: vs) ->
     Qle (coord i (bb_min bb)) (coord i w) /\ Qle (coord i w) (coord i (bb_max bb))) /\
  (exists w, In w (v :: vs) /\ coord i (bb_min bb) = coord i w) /\
  (exists w, In w (v :: vs) /\ coord i (bb_max bb) = coord i w).
Proof.
  cbv zeta.
  assert (Hproj : forall (proj : Vec3 -> Q) (m : Q),
            (m = proj v \/ In m (map proj vs)) -> exists w, In w (v :: vs) /\ m = proj w).
  { intros proj m [->|Hm]; [exists v; split; [left|]; done|].
    apply in_map_iff in Hm as (w & <- & Hw). exists w. split; [right|]; done. }
  assert (Hall : forall (proj : Vec3 -> Q) (m M : Q),
            Qle m (proj v) -> (forall y, In y (map proj vs) -> Qle m y) ->
            Qle (proj v) M -> (forall y, In y (map proj vs) -> Qle y M) ->
            forall w, In w (v :: vs) -> Qle m (proj w) /\ Qle (proj w) M).
  { intros proj m M H1 H2 H3 H4 w [<-|Hw]; [done|].
    split; [apply H2 | apply H4]; apply in_map; done. }
  pose (pymin := fun acc x => if ElementClassifier.Q_ltb x acc then x else acc).
  pose (pymax := fun acc x => if ElementClassifier.Q_ltb acc x then x else acc).
  pose proof (fun l x0 => fold_select_bound Qle Qle_refl Qle_trans' Qmin
               (fun a b => conj (Q.le_min_l a b) (Q.le_min_r a b)) l x0) as Bmin.
  pose proof (fun l x0 => fold_select_bound (fun a b => Qle b a) Qle_refl Qge_trans' Qmax
               (fun a b => conj (Q.le_max_l a b) (Q.le_max_r a b)) l x0) as Bmax.
  pose proof (fun l x0 => fold_select_bound Qle Qle_refl Qle_trans' pymin
               py_min_sel_bound l x0) as Bpymin.
  pose proof (fun l x0 => fold_select_bound (fun a b => Qle b a) Qle_refl Qge_trans' pymax
               py_max_sel_bound l x0) as Bpymax.
  pose proof (fold_select_choice Qmin Qmin_choice) as Cmin.
  pose proof (fold_select_choice Qmax Qmax_choice) as Cmax.
  pose proof (fold_select_choice pymin
                (fun a b => if_choice (ElementClassifier.Q_ltb b a) b a)) as Cpymin.
  pose proof (fold_select_choice pymax
                (fun a b => if_choice (ElementClassifier.Q_ltb a b) b a)) as Cpymax.
  destruct numpy; destruct i; cbn [_calculate_bounding_box bb_min bb_max coord vx vy vz];
  unfold np_min, np_max, py_min, py_max;
  (split; [apply Hall|split; apply Hproj]);
  first
    [ apply (proj1 (Bmin _ _)) | apply (proj2 (Bmin _ _))
    | apply (proj1 (Bmax _ _)) | apply (proj2 (Bmax _ _))
    | apply (proj1 (Bpymin _ _)) | apply (proj2 (Bpymin _ _))
    | apply (proj1 (Bpymax _ _)) | apply (proj2 (Bpymax _ _))
    | apply Cmin | apply Cmax | apply Cpymin | apply Cpymax ].
Qed.

(** C8. [_calculate_bounding_box] is total; on the empty vertex list it is the
    all-zero box, and otherwise, with or without numpy, its min and max are,
    on every axis, a lower and an upper bound of every vertex and are attained
    by some vertex (the componentwise minimum and maximum). *)
Theorem bounding_box_componentwise (NUMPY_AVAILABLE : bool) (V : list Vec3) :
  (V = [] -> _calculate_bounding_box NUMPY_AVAILABLE V = mkBoundingBox origin origin) /\
  forall (i : axis),
    let bb := _calculate_bounding_box NUMPY_AVAILABLE V in
    (forall v, In v V ->
       Qle (coord i (bb_min bb)) (coord i v) /\ Qle (coord i v) (coord i (bb_max bb))) /\
    (V <> [] ->
       (exists v, In v V /\ coord i (bb_min bb) = coord i v) /\
       (exists v, In v V /\ coord i (bb_max bb) = coord i v)).
Proof.
  split; [intros ->; done|].
  intros i. destruct V as [|v vs].
  - cbv zeta. split; [done|]. intros H. done.
  - destruct (axis_min_max NUMPY_AVAILABLE v vs i) as (H1 & H2 & H3).
    split; [exact H1|]. intros _. split; assumption.
Qed.

End GeometryClaims.

Module JobFacts.
Import Main.

(** Symbolic execution of a [JM] computation in hypothesis [H]: unfold the
    monad and the store writes, and rewrite with the known lookups and
    processor results. *)
Ltac run_in H :=
  repeat (first [ rewrite lookup_insert_eq in H
                 | match goal with E : sv_jobs _ !! _ = Some _ |- _ => rewrite E in H end
                 | match goal with E : ?f _ = Some _ |- _ => rewrite E in H end
                 | match goal with E : validate_file_of _ _ = _ |- _ => rewrite E in H end
                 | match goal with E : extract_elements_of _ _ _ _ = _ |- _ => rewrite E in H end
                 | match goal with E : get_project_info_of _ _ = _ |- _ => rewrite E in H end
                 | match goal with E : get_software_version_of _ _ = _ |- _ => rewrite E in H end
                 | progress cbn -[insert lookup] in H
                 | progress unfold bind, set_job, put_job, raise, ret, lift, run_proc,
                     mark_error in H ]).

Ltac unfold_process H :=
  unfold process_with, try_except, bind, get_jobs, set_job, put_job, lift, ret, raise,
    run_proc, mark_error in H.

Ltac log_prefix H :=
  injection H as _ <-; cbn; rewrite <- !app_assoc, drop_app_length; eexists; reflexivity.

Lemma progress_trace_app mid l1 l2 :
  progress_trace mid (l1 ++ l2) = (progress_trace mid l1 ++ progress_trace mid l2)%list.
Proof. unfold progress_trace. by rewrite filter_app, map_app. Qed.

Lemma progress_trace_same mid j :
  progress_trace mid [(mid, j)] = [j_progress j].
Proof. unfold progress_trace. cbn. by rewrite String.eqb_refl. Qed.

Lemma progress_trace_cons mid j l :
  progress_trace mid ((mid, j) :: l) = j_progress j :: progress_trace mid l.
Proof.
  change ((mid, j) :: l) with (app [(mid, j)] l).
  by rewrite progress_trace_app, progress_trace_same.
Qed.

Lemma progress_trace_forall mid l (P : Z -> Prop) :
  Forall (fun kj => kj.1 = mid /\ P (j_progress kj.2)) l ->
  Forall P (progress_trace mid l).
Proof.
  induction 1 as [|[k j] l [Hk Hp] _ IH]; [constructor|].
  cbn in Hk. subst k. rewrite progress_trace_cons. by constructor.
Qed.

(** A successful run of [process_bim_model]'s body, read backwards. *)
Lemma process_with_ok_inv select now mid s els s' :
  process_with select now mid s = (Ok els, s') ->
  exists job p ps' rest,
    sv_jobs s !! mid = Some job /\ select (j_file_type job) = Some p /\
    extract_elements_of p (j_file_path job) mid (sv_proc s) = (Ok els, ps') /\
    sv_jobs s' !! mid = Some (final_job now (length els) job) /\
    sv_log s' = app (sv_log s) rest /\
    progress_trace mid rest = [j_progress job; 10; 20; 30; 80; 80; 90; 90; 100; 100]%Z.
Proof.
  intros H. unfold_process H.
  destruct (sv_jobs s !! mid) as [job|] eqn:Hj; [|cbn in H; congruence].
  run_in H.
  destruct (select (j_file_type job)) as [p|] eqn:Hp; [|run_in H; congruence].
  run_in H.
  destruct (validate_file_of p (j_file_path job)) as [[[|] msg]|e]; run_in H.
  3:{ destruct e; run_in H; congruence. }
  2:{ congruence. }
  destruct (extract_elements_of p (j_file_path job) mid (sv_proc s))
    as [[els0|e] ps'] eqn:He; run_in H.
  2:{ destruct e; run_in H; congruence. }
  destruct (get_project_info_of p (j_file_path job)) as [info|e];
    run_in H; [|destruct e; run_in H; congruence].
  destruct (get_software_version_of p (j_file_path job)) as [ver|e];
    run_in H; [|destruct e; run_in H; congruence].
  injection H as <- <-.
  exists job, p, ps'. eexists.
  split; [done|]. split; [done|]. split; [done|]. cbn.
  split; [by rewrite lookup_insert_eq|].
  split; [rewrite <- !app_assoc; reflexivity|].
  unfold progress_trace. cbn. rewrite String.eqb_refl. reflexivity.
Qed.

(** The same run, forwards: when every step succeeds, so does the call. *)
Lemma process_with_ok_fwd select now mid s job p msg els ps' info ver :
  sv_jobs s !! mid = Some job -> select (j_file_type job) = Some p ->
  validate_file_of p (j_file_path job) = Ok (true, msg) ->
  extract_elements_of p (j_file_path job) mid (sv_proc s) = (Ok els, ps') ->
  get_project_info_of p (j_file_path job) = Ok info ->
  get_software_version_of p (j_file_path job) = Ok ver ->
  exists s', process_with select now mid s = (Ok els, s') /\
    sv_jobs s' !! mid = Some (final_job now (length els) job).
Proof.
  intros Hj Hp Hv He Hi Hver.
  destruct (process_with select now mid s) as [r s'] eqn:H.
  unfold_process H. run_in H. injection H as <- <-.
  eexists. split; [reflexivity|]. cbn. by rewrite lookup_insert_eq.
Qed.

(** A fatal error of the extractor, forwards. *)
Lemma process_with_extract_error select now mid s job p msg e m ps' :
  sv_jobs s !! mid = Some job -> select (j_file_type job) = Some p ->
  validate_file_of p (j_file_path job) = Ok (true, msg) ->
  extract_elements_of p (j_file_path job) mid (sv_proc s) = (Raise e, ps') ->
  e = IFCFileError m \/ e = RevitFileError m ->
  fst (process_with select now mid s) = Raise (HTTPException 422 m) /\
  sv_jobs (snd (process_with select now mid s)) !! mid =
    Some (set_error_message (Some m) (set_status ERROR (set_progress 30
      (set_progress 20 (set_progress 10 (set_status PROCESSING job)))))) /\
  progress_trace mid (drop (length (sv_log s)) (sv_log (snd (process_with select now mid s))))
    = [j_progress job; 10; 20; 30; 30; 30]%Z.
Proof.
  intros Hj Hp Hv He Hm.
  destruct (process_with select now mid s) as [r s'] eqn:H.
  unfold_process H. run_in H.
  destruct Hm as [-> | ->]; run_in H; injection H as <- <-; cbn;
    (split; [reflexivity|]); (split; [by rewrite lookup_insert_eq|]);
    rewrite <- !app_assoc, drop_app_length; unfold progress_trace; cbn;
    rewrite String.eqb_refl; reflexivity.
Qed.

(** Every run of [process_bim_model]'s body on an existing job starts with
    the two writes [status = PROCESSING] and [progress = 10]. *)
Lemma process_with_log_prefix select now mid s job r s' :
  sv_jobs s !! mid = Some job ->
  process_with select now mid s = (r, s') ->
  exists rest, drop (length (sv_log s)) (sv_log s') =
    (mid, set_status PROCESSING job)
      :: (mid, set_progress 10 (set_status PROCESSING job)) :: rest.
Proof.
  intros Hj H. unfold_process H. run_in H.
  destruct (select (j_file_type job)) as [p|]; [|run_in H; log_prefix H].
  run_in H.
  destruct (validate_file_of p (j_file_path job)) as [[[|] msg]|e]; run_in H.
  3:{ destruct e; run_in H; log_prefix H. }
  2:{ log_prefix H. }
  destruct (extract_elements_of p (j_file_path job) mid (sv_proc s))
    as [[els0|e] ps'] eqn:He; run_in H.
  2:{ destruct e; run_in H; log_prefix H. }
  destruct (get_project_info_of p (j_file_path job)) as [info|e];
    run_in H; [|destruct e; run_in H; log_prefix H].
  destruct (get_software_version_of p (j_file_path job)) as [ver|e];
    run_in H; [|destruct e; run_in H; log_prefix H].
  log_prefix H.
Qed.

Ltac rerun_end H :=
  injection H as <- <-; cbn;
  split;
  [ rewrite <- !app_assoc, drop_app_length; cbn [app]; eexists; split; [reflexivity|];
    repeat (constructor; [split; [reflexivity | cbn; lia] |]); constructor
  | intros ? Heq;
    first [ discriminate Heq
          | injection Heq as <-;
            eexists; rewrite lookup_insert_eq; split; [reflexivity|]; cbn;
            first [ left; reflexivity
                  | right; split; [reflexivity | eexists _, _; reflexivity] ] ] ].

(** Every run of [process_bim_model]'s body on an existing job: after the
    two writes [status = PROCESSING] and [progress = 10] it writes only to
    that job, and never a progress below 10; a run that raises leaves the
    job in status ERROR, or, when the error is an HTTP error re-raised as it
    is (an unsupported file type), in status PROCESSING. *)
Lemma process_with_rerun_shape select now mid s job r s' :
  sv_jobs s !! mid = Some job ->
  process_with select now mid s = (r, s') ->
  (exists rest, drop (length (sv_log s)) (sv_log s') =
     (mid, set_status PROCESSING job)
       :: (mid, set_progress 10 (set_status PROCESSING job)) :: rest /\
     Forall (fun kj => kj.1 = mid /\ (10 <= j_progress kj.2)%Z) rest) /\
  (forall e, r = Raise e -> exists job',
     sv_jobs s' !! mid = Some job' /\
     (j_status job' = ERROR \/
      (j_status job' = PROCESSING /\ exists code msg, e = HTTPException code msg))).
Proof.
  intros Hj H. unfold_process H. run_in H.
  destruct (select (j_file_type job)) as [p|]; [|run_in H; rerun_end H].
  run_in H.
  destruct (validate_file_of p (j_file_path job)) as [[[|] msg]|e]; run_in H.
  3:{ destruct e; run_in H; rerun_end H. }
  2:{ rerun_end H. }
  destruct (extract_elements_of p (j_file_path job) mid (sv_proc s))
    as [[els0|e] ps'] eqn:He; run_in H.
  2:{ destruct e; run_in H; rerun_end H. }
  destruct (get_project_info_of p (j_file_path job)) as [info|e];
    run_in H; [|destruct e; run_in H; rerun_end H].
  destruct (get_software_version_of p (j_file_path job)) as [ver|e];
    run_in H; [|destruct e; run_in H; rerun_end H].
  rerun_end H.
Qed.

(** A successful [upload_bim_model] creates the job with one write. *)
Lemma upload_ok_inv env project_id file_path file_type s mid s1 :
  upload_bim_model env project_id file_path file_type s = (Ok mid, s1) ->
  exists job0, sv_jobs s1 = <[mid:=job0]> (sv_jobs s) /\
    sv_log s1 = app (sv_log s) [(mid, job0)] /\
    j_status job0 = PROCESSING /\ j_progress job0 = 0%Z /\
    j_file_path job0 = file_path /\ j_file_type job0 = lower file_type.
Proof.
  unfold upload_bim_model, try_except, bind, put_job, lift, ret, raise, run_proc, uuid4.
  destruct (negb _); [cbn; congruence|].
  destruct (negb (path_exists env file_path)); [cbn; congruence|].
  cbn. destruct (path_size env file_path) as [sz|e]; cbn; [|destruct e; cbn; congruence].
  intros H. injection H as <- <-. cbn. eexists. repeat split.
Qed.

End JobFacts.

Module JobClaims.
Import Main JobFacts.

(** C2: a job created by [upload_bim_model] and then processed by
    [process_bim_model] without an error ends with status READY, progress
    100 and [elements_processed] equal to the number of elements the
    extractor returned; the progress values written to the job from its
    creation on are 0, 0, 10, 20, 30, 80, 80, 90, 90, 100, 100, which never
    decrease. *)
Theorem successful_processing_ends_ready env project_id file_path file_type s mid s1 els s2 :
  upload_bim_model env project_id file_path file_type s = (Ok mid, s1) ->
  process_bim_model env mid s1 = (Ok els, s2) ->
  exists job,
    sv_jobs s2 !! mid = Some job /\
    j_status job = READY /\ j_progress job = 100%Z /\
    j_elements_processed job = Z.of_nat (length els) /\
    (exists p ps', select_processor env (j_file_type job) = Some p /\
       extract_elements_of p (j_file_path job) mid (sv_proc s1) = (Ok els, ps')) /\
    progress_trace mid (drop (length (sv_log s)) (sv_log s2)) =
      [0; 0; 10; 20; 30; 80; 80; 90; 90; 100; 100]%Z /\
    nondecreasing (progress_trace mid (drop (length (sv_log s)) (sv_log s2))) = true.
Proof.
  intros Hu Hp. unfold process_bim_model in Hp.
  destruct (upload_ok_inv _ _ _ _ _ _ _ Hu) as (job0 & Hjobs & Hlog & _ & Hpr & _ & _).
  destruct (process_with_ok_inv _ _ _ _ _ _ Hp)
    as (job & p & ps' & rest & Hj & Hsel & He & Hj' & Hlog2 & Htr).
  rewrite Hjobs, lookup_insert_eq in Hj. injection Hj as <-.
  assert (Htrace : progress_trace mid (drop (length (sv_log s)) (sv_log s2)) =
                     [0; 0; 10; 20; 30; 80; 80; 90; 90; 100; 100]%Z).
  { rewrite Hlog2, Hlog, <- app_assoc, drop_app_length, progress_trace_app,
      progress_trace_same, Htr, Hpr. reflexivity. }
  exists (final_job (utc_now env) (length els) job0).
  split; [exact Hj'|]. split; [reflexivity|]. split; [reflexivity|].
  split; [reflexivity|]. split; [exists p, ps'; split; assumption|].
  split; [exact Htrace|]. rewrite Htrace. reflexivity.
Qed.

Lemma successful_processing_ends_ready_witness :
  upload_bim_model Demo.env "p1" "/data/model.ifc" "IFC" Demo.empty_service
    = (Ok "uuid-0", Demo.ifc_uploaded) /\
  process_bim_model Demo.env "uuid-0" Demo.ifc_uploaded
    = (Ok Demo.ifc_elements, Demo.ifc_processed) /\
  exists job,
    sv_jobs Demo.ifc_processed !! "uuid-0" = Some job /\
    j_status job = READY /\ j_progress job = 100%Z /\
    j_elements_processed job = Z.of_nat (length Demo.ifc_elements) /\
    (exists p ps', select_processor Demo.env (j_file_type job) = Some p /\
       extract_elements_of p (j_file_path job) "uuid-0" (sv_proc Demo.ifc_uploaded)
         = (Ok Demo.ifc_elements, ps')) /\
    progress_trace "uuid-0" (drop (length (sv_log Demo.empty_service))
                               (sv_log Demo.ifc_processed)) =
      [0; 0; 10; 20; 30; 80; 80; 90; 90; 100; 100]%Z /\
    nondecreasing (progress_trace "uuid-0" (drop (length (sv_log Demo.empty_service))
                                              (sv_log Demo.ifc_processed))) = true.
Proof.
  assert (H1 : upload_bim_model Demo.env "p1" "/data/model.ifc" "IFC" Demo.empty_service
                 = (Ok "uuid-0", Demo.ifc_uploaded)) by (vm_compute; reflexivity).
  assert (H2 : process_bim_model Demo.env "uuid-0" Demo.ifc_uploaded
                 = (Ok Demo.ifc_elements, Demo.ifc_processed)) by (vm_compute; reflexivity).
  split; [exact H1|]. split; [exact H2|].
  exact (successful_processing_ends_ready _ _ _ _ _ _ _ _ _ H1 H2).
Defined.

(** C3: when the processor accepts the job's file and its extractor then
    raises a fatal file-format error ([IFCFileError] or [RevitFileError]
    with message [m]), [process_bim_model] answers HTTP 422 and leaves the
    job with status ERROR, error message [m] and progress 30: the last
    checkpoint written before the failure, below 100; the progress values
    it writes are the job's previous one, 10, 20, 30, 30, 30. This holds
    for any choice of processor. *)
Theorem fatal_extraction_error_freezes_progress select now mid s job p msg e m ps' :
  sv_jobs s !! mid = Some job -> select (j_file_type job) = Some p ->
  validate_file_of p (j_file_path job) = Ok (true, msg) ->
  extract_elements_of p (j_file_path job) mid (sv_proc s) = (Raise e, ps') ->
  e = IFCFileError m \/ e = RevitFileError m ->
  fst (process_with select now mid s) = Raise (HTTPException 422 m) /\
  exists j,
    sv_jobs (snd (process_with select now mid s)) !! mid = Some j /\
    j_status j = ERROR /\ j_error_message j = Some m /\
    j_progress j = 30%Z /\ (j_progress j < 100)%Z /\
    progress_trace mid (drop (length (sv_log s)) (sv_log (snd (process_with select now mid s))))
      = [j_progress job; 10; 20; 30; 30; 30]%Z.
Proof.
  intros Hj Hp Hv He Hm.
  destruct (process_with_extract_error select now mid s job p msg e m ps' Hj Hp Hv He Hm)
    as (Hr & Hjob & Htr).
  split; [exact Hr|].
  eexists. split; [exact Hjob|]. cbn.
  split; [reflexivity|]. split; [reflexivity|]. split; [reflexivity|].
  split; [lia|exact Htr].
Qed.

Lemma fatal_extraction_error_freezes_progress_witness :
  sv_jobs Demo.ifc_uploaded !! "uuid-0" = Some Demo.ifc_job /\
  fst (process_with (fun _ => Some Demo.failing_processor) "now" "uuid-0" Demo.ifc_uploaded)
    = Raise (HTTPException 422 "Unable to parse /data/model.ifc") /\
  exists j,
    sv_jobs (snd (process_with (fun _ => Some Demo.failing_processor) "now" "uuid-0"
                    Demo.ifc_uploaded)) !! "uuid-0" = Some j /\
    j_status j = ERROR /\ j_error_message j = Some "Unable to parse /data/model.ifc" /\
    j_progress j = 30%Z /\ (j_progress j < 100)%Z /\
    progress_trace "uuid-0" (drop (length (sv_log Demo.ifc_uploaded))
      (sv_log (snd (process_with (fun _ => Some Demo.failing_processor) "now" "uuid-0"
                      Demo.ifc_uploaded))))
      = [j_progress Demo.ifc_job; 10; 20; 30; 30; 30]%Z.
Proof.
  assert (Hj : sv_jobs Demo.ifc_uploaded !! "uuid-0" = Some Demo.ifc_job)
    by (vm_compute; reflexivity).
  split; [exact Hj|].
  exact (fatal_extraction_error_freezes_progress (fun _ => Some Demo.failing_processor)
           "now" "uuid-0" Demo.ifc_uploaded Demo.ifc_job Demo.failing_processor None
           (IFCFileError "Unable to parse /data/model.ifc") "Unable to parse /data/model.ifc"
           (sv_proc Demo.ifc_uploaded) Hj eq_refl eq_refl eq_refl (or_introl eq_refl)).
Defined.

(** C4 (counterexample): the job "uuid-0" of the demo model is READY with
    progress 100 after one run of [process_bim_model]; a second run first
    writes status PROCESSING with progress still 100, then progress 10, and
    never writes progress 0. *)
Lemma reprocessing_does_not_reset_progress :
  option_map j_status (sv_jobs Demo.ifc_processed !! "uuid-0") = Some READY /\
  option_map j_progress (sv_jobs Demo.ifc_processed !! "uuid-0") = Some 100%Z /\
  map (fun kj => (j_status kj.2, j_progress kj.2))
    (take 2 (drop (length (sv_log Demo.ifc_processed)) (sv_log Demo.ifc_reprocessed)))
    = [(PROCESSING, 100%Z); (PROCESSING, 10%Z)] /\
  existsb (Z.eqb 0) (progress_trace "uuid-0"
    (drop (length (sv_log Demo.ifc_processed)) (sv_log Demo.ifc_reprocessed))) = false.
Proof. vm_compute. repeat split. Qed.

(** C4 (amended): processing a job that is already READY or ERROR runs the
    whole pipeline again rather than resuming. Its first write sets status
    PROCESSING while the job keeps its previous progress, its second sets
    progress 10, and every later write is to the same job with a progress of
    at least 10: the run never writes progress 0. A successful rerun ends
    READY at progress 100 with the new element count and completion time,
    and keeps the fields it does not write, such as the error message of an
    earlier failure. A failing rerun ends in status ERROR, or, for an HTTP
    error that is re-raised as it is (an unsupported file type), in status
    PROCESSING. *)
Theorem reprocessing_reruns_pipeline select now mid s job r s' :
  sv_jobs s !! mid = Some job ->
  j_status job = READY \/ j_status job = ERROR ->
  process_with select now mid s = (r, s') ->
  j_progress (set_status PROCESSING job) = j_progress job /\
  (exists rest, drop (length (sv_log s)) (sv_log s') =
     (mid, set_status PROCESSING job)
       :: (mid, set_progress 10 (set_status PROCESSING job)) :: rest /\
     Forall (fun kj => kj.1 = mid /\ (10 <= j_progress kj.2)%Z) rest) /\
  (exists tail, progress_trace mid (drop (length (sv_log s)) (sv_log s')) =
     j_progress job :: 10%Z :: tail /\ Forall (fun p => (10 <= p)%Z) tail) /\
  (forall els, r = Ok els ->
     sv_jobs s' !! mid = Some (final_job now (length els) job) /\
     j_status (final_job now (length els) job) = READY /\
     j_progress (final_job now (length els) job) = 100%Z /\
     j_elements_processed (final_job now (length els) job) = Z.of_nat (length els) /\
     j_error_message (final_job now (length els) job) = j_error_message job) /\
  (forall e, r = Raise e -> exists job',
     sv_jobs s' !! mid = Some job' /\
     (j_status job' = ERROR \/
      (j_status job' = PROCESSING /\ exists code msg, e = HTTPException code msg))).
Proof.
  intros Hj _ H.
  destruct (process_with_rerun_shape _ _ _ _ _ _ _ Hj H) as [(rest & Hd & Hf) Hraise].
  split; [reflexivity|].
  split; [exists rest; split; assumption|].
  split.
  { rewrite Hd, !progress_trace_cons. exists (progress_trace mid rest).
    split; [reflexivity|]. exact (progress_trace_forall _ _ _ Hf). }
  split; [|exact Hraise].
  intros els ->.
  destruct (process_with_ok_inv _ _ _ _ _ _ H) as (job' & _ & _ & _ & Hj' & _ & _ & Hfin & _).
  rewrite Hj in Hj'. injection Hj' as <-.
  split; [exact Hfin|]. repeat split.
Qed.

Lemma reprocessing_reruns_pipeline_witness :
  sv_jobs Demo.ifc_processed !! "uuid-0"
    = Some (final_job (utc_now Demo.env) 9 Demo.ifc_job) /\
  j_status (final_job (utc_now Demo.env) 9 Demo.ifc_job) = READY /\
  (exists rest, drop (length (sv_log Demo.ifc_processed)) (sv_log Demo.ifc_reprocessed) =
     ("uuid-0", set_status PROCESSING (final_job (utc_now Demo.env) 9 Demo.ifc_job))
       :: ("uuid-0", set_progress 10 (set_status PROCESSING
                                        (final_job (utc_now Demo.env) 9 Demo.ifc_job)))
       :: rest /\
     Forall (fun kj => kj.1 = "uuid-0" /\ (10 <= j_progress kj.2)%Z) rest).
Proof.
  assert (Hj : sv_jobs Demo.ifc_processed !! "uuid-0"
                 = Some (final_job (utc_now Demo.env) 9 Demo.ifc_job))
    by (vm_compute; reflexivity).
  split; [exact Hj|]. split; [reflexivity|].
  exact (proj1 (proj2 (reprocessing_reruns_pipeline (select_processor Demo.env)
    (utc_now Demo.env) "uuid-0" Demo.ifc_processed _ _ _ Hj (or_introl eq_refl)
    (surjective_pairing _)))).
Defined.

End JobClaims.

Module ProcessorFacts.
Import Main.

(** One iteration of the IFC element loop, with its [try ... except]: it
    never raises, and yields an element exactly for the entities that
    [element_ok] accepts, carrying the entity's GlobalId. *)
Lemma process_one_ok env ie mid ps :
  exists o ps',
    try_except (IFCProcessor._process_ifc_element env ie mid) (fun _ => ret None) ps
      = (Ok o, ps') /\
    option_map el_external_id o =
      (if IFCProcessor.element_ok env ie then Some (GlobalId ie) else None).
Proof.
  unfold try_except, IFCProcessor._process_ifc_element, IFCProcessor._classify_element,
    IFCProcessor.element_ok, with_cache, bind, ret, raise, uuid4.
  destruct (ElementClassifier.classify_ifc_element _ _ _ _) as [cat c'].
  destruct (IFCProcessor._extract_geometry env ie) as [g|]; cbn.
  - destruct (ie_fault ie) as [e|]; cbn; eexists; eexists; split; reflexivity.
  - eexists; eexists; split; reflexivity.
Qed.

Lemma process_each_ok env bes mid acc ps :
  exists l ps',
    IFCProcessor.process_each env bes mid acc ps = (Ok (app acc l), ps') /\
    map el_external_id l = map GlobalId (List.filter (IFCProcessor.element_ok env) bes).
Proof.
  revert acc ps. induction bes as [|ie rest IH]; intros acc ps.
  - exists [], ps. cbn. rewrite app_nil_r. split; reflexivity.
  - destruct (process_one_ok env ie mid ps) as (o & ps1 & Hone & Hid).
    cbn [IFCProcessor.process_each]. unfold bind at 1. rewrite Hone.
    destruct (IH (match o with Some element => app acc [element] | None => acc end) ps1)
      as (l & ps' & Hrest & Hl).
    rewrite Hrest. cbn [List.filter].
    destruct o as [el|]; cbn in Hid.
    + exists (el :: l), ps'. rewrite <- app_assoc. split; [reflexivity|].
      destruct (IFCProcessor.element_ok env ie); [|discriminate].
      injection Hid as Hid. cbn. rewrite Hid, Hl. reflexivity.
    + exists l, ps'. split; [reflexivity|].
      destruct (IFCProcessor.element_ok env ie); [discriminate|exact Hl].
Qed.

(** [IFCProcessor.get_project_info] and [get_software_version] never raise. *)
Lemma ifc_project_info_ok env file_path :
  exists info, IFCProcessor.get_project_info env file_path = Ok info.
Proof.
  unfold IFCProcessor.get_project_info.
  destruct (negb (IFCOPENSHELL_AVAILABLE env)); [eexists; reflexivity|].
  destruct (IFCProcessor.project_info_body env file_path); eexists; reflexivity.
Qed.

Lemma ifc_software_version_ok env file_path :
  exists v, IFCProcessor.get_software_version env file_path = Ok v.
Proof.
  unfold IFCProcessor.get_software_version.
  destruct (ifc_project_info_ok env file_path) as [info ->]. eexists; reflexivity.
Qed.

(** A file accepted by [IFCProcessor.validate_file] is extracted without a
    fatal error, to the elements of the entities [element_ok] accepts. *)
Lemma ifc_extract_ok env file_path mid ifc_file ps :
  fst (IFCProcessor.validate_file env file_path) = true ->
  ifcopenshell_open env file_path = Ok ifc_file ->
  exists l ps',
    IFCProcessor.extract_elements env file_path mid ps = (Ok l, ps') /\
    map el_external_id l =
      map GlobalId (List.filter (IFCProcessor.element_ok env)
                      (IFCProcessor._get_building_elements ifc_file)).
Proof.
  intros Hv Ho.
  assert (Ha : IFCOPENSHELL_AVAILABLE env = true).
  { unfold IFCProcessor.validate_file in Hv.
    destruct (IFCOPENSHELL_AVAILABLE env); [reflexivity|discriminate]. }
  destruct (process_each_ok env (IFCProcessor._get_building_elements ifc_file) mid [] ps)
    as (l & ps' & Hl & Hids).
  exists l, ps'. split; [|exact Hids].
  unfold IFCProcessor.extract_elements. rewrite Ha. cbn [negb].
  destruct (IFCProcessor.validate_file env file_path) as [b msg]. cbn in Hv. subst b.
  cbn [negb]. unfold try_except, bind, lift. rewrite Ho, Hl. reflexivity.
Qed.

(** [RevitProcessor.validate_file] accepts only existing paths, and the
    metadata of an existing path is read without raising. *)
Lemma revit_valid_exists env file_path :
  fst (RevitProcessor.validate_file env file_path) = true ->
  exists st, env_fs env file_path = Some st.
Proof.
  unfold RevitProcessor.validate_file.
  destruct (env_fs env file_path) as [st|]; [eauto|discriminate].
Qed.

Lemma revit_metadata_ok env file_path st :
  env_fs env file_path = Some st ->
  exists md, RevitProcessor._extract_file_metadata env file_path = Ok md.
Proof.
  intros Hfs. unfold RevitProcessor._extract_file_metadata, path_size. rewrite Hfs.
  destruct (negb (OLEFILE_AVAILABLE env)); [eexists; reflexivity|].
  destruct (olefile_metadata env file_path) as [meta|]; [|eexists; reflexivity].
  destruct (olefile_listdir env file_path); eexists; reflexivity.
Qed.

Lemma revit_samples_ok mid file_path ps :
  exists els ps',
    RevitProcessor._create_sample_elements mid file_path ps = (Ok els, ps') /\
    map el_category els = [WALL; FLOOR; COLUMN; BEAM; DOOR; WINDOW].
Proof.
  unfold RevitProcessor._create_sample_elements, RevitProcessor.sample_categories.
  cbn [RevitProcessor.create_samples].
  unfold bind, ret, RevitProcessor._create_element, uuid4. cbn.
  eexists; eexists; split; reflexivity.
Qed.

(** On a valid file, [RevitProcessor.extract_elements] is
    [_create_sample_elements]. *)
Lemma revit_extract_valid env file_path mid ps :
  fst (RevitProcessor.validate_file env file_path) = true ->
  RevitProcessor.extract_elements env file_path mid ps =
    RevitProcessor._create_sample_elements mid file_path ps.
Proof.
  intros Hv.
  destruct (revit_valid_exists env file_path Hv) as [st Hfs].
  destruct (revit_metadata_ok env file_path st Hfs) as [md Hmd].
  destruct (revit_samples_ok mid file_path ps) as (els & ps' & Hs & _).
  unfold RevitProcessor.extract_elements.
  destruct (RevitProcessor.validate_file env file_path) as [b msg]. cbn in Hv. subst b.
  cbn [negb]. unfold try_except, bind, lift. rewrite Hmd, Hs. reflexivity.
Qed.

End ProcessorFacts.

Module ProcessorClaims.
Import Main JobFacts ProcessorFacts.

(** C7: for an "ifc" job whose file IFCProcessor accepts, [process_bim_model]
    succeeds; the elements it returns are those of the building entities
    whose processing succeeds ([element_ok]: geometry extracted, nothing
    raised), in order, every other entity being left out; and the job ends
    READY with [elements_processed] their number. *)
Theorem per_element_failures_are_skipped env s mid job ifc_file :
  sv_jobs s !! mid = Some job ->
  j_file_type job = "ifc" ->
  fst (IFCProcessor.validate_file env (j_file_path job)) = true ->
  ifcopenshell_open env (j_file_path job) = Ok ifc_file ->
  exists els s' j,
    process_bim_model env mid s = (Ok els, s') /\
    map el_external_id els =
      map GlobalId (List.filter (IFCProcessor.element_ok env)
                      (IFCProcessor._get_building_elements ifc_file)) /\
    sv_jobs s' !! mid = Some j /\ j_status j = READY /\
    j_elements_processed j =
      Z.of_nat (length (List.filter (IFCProcessor.element_ok env)
                          (IFCProcessor._get_building_elements ifc_file))).
Proof.
  intros Hj Ht Hv Ho.
  destruct (ifc_extract_ok env (j_file_path job) mid ifc_file (sv_proc s) Hv Ho)
    as (els & ps' & He & Hids).
  destruct (ifc_project_info_ok env (j_file_path job)) as [info Hi].
  destruct (ifc_software_version_ok env (j_file_path job)) as [ver Hver].
  assert (Hp : select_processor env (j_file_type job) = Some (ifc_processor env))
    by (rewrite Ht; reflexivity).
  assert (Hval : validate_file_of (ifc_processor env) (j_file_path job)
                   = Ok (true, snd (IFCProcessor.validate_file env (j_file_path job)))).
  { cbn. destruct (IFCProcessor.validate_file env (j_file_path job)) as [b msg].
    cbn in Hv. subst b. reflexivity. }
  destruct (process_with_ok_fwd (select_processor env) (utc_now env) mid s job
              (ifc_processor env) _ els ps' info ver Hj Hp Hval He Hi Hver)
    as (s' & Hrun & Hjob).
  exists els, s', (final_job (utc_now env) (length els) job).
  split; [exact Hrun|]. split; [exact Hids|]. split; [exact Hjob|].
  split; [reflexivity|]. cbn.
  rewrite <- (length_map el_external_id els), Hids, length_map. reflexivity.
Qed.

(** The scenario of ten walls, one without usable geometry: nine elements
    are returned and the job is READY with [elements_processed] 9. *)
Lemma per_element_failures_are_skipped_witness :
  (exists els s' j,
    process_bim_model Demo.env "uuid-0" Demo.ifc_uploaded = (Ok els, s') /\
    map el_external_id els =
      map GlobalId (List.filter (IFCProcessor.element_ok Demo.env)
                      (IFCProcessor._get_building_elements Demo.ifc_model)) /\
    sv_jobs s' !! "uuid-0" = Some j /\ j_status j = READY /\
    j_elements_processed j =
      Z.of_nat (length (List.filter (IFCProcessor.element_ok Demo.env)
                          (IFCProcessor._get_building_elements Demo.ifc_model)))) /\
  length (IFCProcessor._get_building_elements Demo.ifc_model) = 10%nat /\
  length (List.filter (IFCProcessor.element_ok Demo.env)
            (IFCProcessor._get_building_elements Demo.ifc_model)) = 9%nat.
Proof.
  assert (Hj : sv_jobs Demo.ifc_uploaded !! "uuid-0" = Some Demo.ifc_job)
    by (vm_compute; reflexivity).
  split; [|split; vm_compute; reflexivity].
  exact (per_element_failures_are_skipped Demo.env Demo.ifc_uploaded "uuid-0" Demo.ifc_job
           Demo.ifc_model Hj eq_refl eq_refl eq_refl).
Defined.

(** C9: [IFCProcessor.get_project_info] and [get_software_version] return
    without raising on every path, but [RevitProcessor.get_project_info] and
    [get_software_version] raise FileNotFoundError on a path that does not
    exist: the [stat()] in [_extract_file_metadata] is outside its [try]. *)
Theorem revit_info_raises_on_missing_file env file_path :
  env_fs env file_path = None ->
  RevitProcessor.get_project_info env file_path =
    Raise (FileNotFoundError ("[Errno 2] No such file or directory: '" ++ file_path ++ "'")) /\
  RevitProcessor.get_software_version env file_path =
    Raise (FileNotFoundError ("[Errno 2] No such file or directory: '" ++ file_path ++ "'")) /\
  (exists info, IFCProcessor.get_project_info env file_path = Ok info) /\
  (exists v, IFCProcessor.get_software_version env file_path = Ok v).
Proof.
  intros Hfs.
  unfold RevitProcessor.get_project_info, RevitProcessor.get_software_version,
    RevitProcessor._extract_file_metadata, path_size.
  rewrite Hfs.
  split; [reflexivity|]. split; [reflexivity|].
  split; [apply ifc_project_info_ok|apply ifc_software_version_ok].
Qed.

Lemma revit_info_raises_on_missing_file_witness :
  env_fs Demo.env "/data/missing.rvt" = None /\
  RevitProcessor.get_project_info Demo.env "/data/missing.rvt" =
    Raise (FileNotFoundError
             ("[Errno 2] No such file or directory: '" ++ "/data/missing.rvt" ++ "'")) /\
  RevitProcessor.get_software_version Demo.env "/data/missing.rvt" =
    Raise (FileNotFoundError
             ("[Errno 2] No such file or directory: '" ++ "/data/missing.rvt" ++ "'")) /\
  (exists info, IFCProcessor.get_project_info Demo.env "/data/missing.rvt" = Ok info) /\
  (exists v, IFCProcessor.get_software_version Demo.env "/data/missing.rvt" = Ok v).
Proof.
  split; [reflexivity|].
  exact (revit_info_raises_on_missing_file Demo.env "/data/missing.rvt" eq_refl).
Defined.

(** C10: on every file [RevitProcessor.validate_file] accepts,
    [extract_elements] returns six elements of categories WALL, FLOOR,
    COLUMN, BEAM, DOOR, WINDOW in this order, and the same elements for any
    other accepted file. *)
Theorem revit_extract_fixed_samples env file_path model_id ps :
  fst (RevitProcessor.validate_file env file_path) = true ->
  exists els ps',
    RevitProcessor.extract_elements env file_path model_id ps = (Ok els, ps') /\
    map el_category els = [WALL; FLOOR; COLUMN; BEAM; DOOR; WINDOW] /\
    (forall file_path', fst (RevitProcessor.validate_file env file_path') = true ->
       RevitProcessor.extract_elements env file_path' model_id ps = (Ok els, ps')).
Proof.
  intros Hv.
  destruct (revit_samples_ok model_id file_path ps) as (els & ps' & Hs & Hcat).
  exists els, ps'.
  split; [rewrite revit_extract_valid by exact Hv; exact Hs|].
  split; [exact Hcat|].
  intros file_path' Hv'. rewrite revit_extract_valid by exact Hv'. exact Hs.
Qed.

Lemma revit_extract_fixed_samples_witness :
  fst (RevitProcessor.validate_file Demo.env "/data/model.rvt") = true /\
  exists els ps',
    RevitProcessor.extract_elements Demo.env "/data/model.rvt" "uuid-0" (mkPSt empty 0)
      = (Ok els, ps') /\
    map el_category els = [WALL; FLOOR; COLUMN; BEAM; DOOR; WINDOW] /\
    (forall file_path', fst (RevitProcessor.validate_file Demo.env file_path') = true ->
       RevitProcessor.extract_elements Demo.env file_path' "uuid-0" (mkPSt empty 0)
         = (Ok els, ps')).
Proof.
  assert (Hv : fst (RevitProcessor.validate_file Demo.env "/data/model.rvt") = true)
    by (vm_compute; reflexivity).
  split; [exact Hv|].
  exact (revit_extract_fixed_samples Demo.env "/data/model.rvt" "uuid-0" (mkPSt empty 0) Hv).
Defined.

End ProcessorClaims.

(* ========================================================================= *)
(* Further properties of the code                                            *)
(* ========================================================================= *)

Module ClassifierExtra.
Import ElementClassifier.
Import Demo.

Lemma insert_fresh_keeps (c : cache) key x k v :
  c !! key = None -> c !! k = Some v -> <[key:=x]> c !! k = Some v.
Proof.
  intros Hn Hk. destruct (decide (k = key)) as [->|Hne]; [congruence|].
  by rewrite lookup_insert_ne by congruence.
Qed.

(** After [classify_ifc_element], the cache maps the call's key to its
    result, and no earlier entry is lost or changed. *)
Lemma classify_ifc_records c t p f :
  (classify_ifc_element c t p f).2 !! ifc_cache_key t f = Some (classify_ifc_element c t p f).1 /\
  (forall k v, c !! k = Some v -> (classify_ifc_element c t p f).2 !! k = Some v).
Proof.
  unfold classify_ifc_element. cbv zeta.
  destruct (c !! ifc_cache_key t f) as [cat|] eqn:Hc; [split; [exact Hc|auto]|].
  repeat match goal with
         | |- context [match ?x with _ => _ end] => destruct x
         end; cbn;
    (split; [by rewrite lookup_insert_eq | intros k v Hk; by apply insert_fresh_keeps]).
Qed.

Lemma classify_revit_records c i cn p f :
  (classify_revit_element c i cn p f).2 !! revit_cache_key i cn f =
    Some (classify_revit_element c i cn p f).1 /\
  (forall k v, c !! k = Some v -> (classify_revit_element c i cn p f).2 !! k = Some v).
Proof.
  unfold classify_revit_element. cbv zeta.
  destruct (c !! revit_cache_key i cn f) as [cat|] eqn:Hc; [split; [exact Hc|auto]|].
  repeat match goal with
         | |- context [match ?x with _ => _ end] => destruct x
         end; cbn;
    (split; [by rewrite lookup_insert_eq | intros k v Hk; by apply insert_fresh_keeps]).
Qed.

(** X1: a classification call stores its result under its cache key and
    never removes or overwrites another entry (IFC and Revit alike). *)
Theorem classification_cache_grows c t p f i cn :
  ((classify_ifc_element c t p f).2 !! ifc_cache_key t f =
     Some (classify_ifc_element c t p f).1 /\
   (forall k v, c !! k = Some v -> (classify_ifc_element c t p f).2 !! k = Some v)) /\
  ((classify_revit_element c i cn p f).2 !! revit_cache_key i cn f =
     Some (classify_revit_element c i cn p f).1 /\
   (forall k v, c !! k = Some v -> (classify_revit_element c i cn p f).2 !! k = Some v)).
Proof. split; [apply classify_ifc_records|apply classify_revit_records]. Qed.

(** X2: repeating a classification call with the same arguments returns
    the same category and leaves the cache as the first call left it. *)
Theorem classification_repeat_is_stable c t p f i cn :
  classify_ifc_element (classify_ifc_element c t p f).2 t p f =
    classify_ifc_element c t p f /\
  classify_revit_element (classify_revit_element c i cn p f).2 i cn p f =
    classify_revit_element c i cn p f.
Proof.
  split.
  - destruct (classify_ifc_records c t p f) as [H _].
    destruct (classify_ifc_element c t p f) as [r c'] eqn:E. cbn in *.
    unfold classify_ifc_element at 1. cbv zeta. by rewrite H.
  - destruct (classify_revit_records c i cn p f) as [H _].
    destruct (classify_revit_element c i cn p f) as [r c'] eqn:E. cbn in *.
    unfold classify_revit_element at 1. cbv zeta. by rewrite H.
Qed.

Lemma pair_fst_eq {A B} (a b : A) (x : B) : a = b -> (a, x) = (b, x).
Proof. by intros ->. Qed.

Lemma revit_code_cases z cat :
  revit_category_get z = Some cat -> In (z, cat) REVIT_CATEGORY_MAPPING.
Proof.
  unfold revit_category_get. cbn. intros H.
  repeat match type of H with
         | context [Z.eqb z ?k] =>
             let E := fresh "E" in
             destruct (Z.eqb z k) eqn:E;
             [apply Z.eqb_eq in E; subst z; injection H as <-; cbn; tauto|]
         end.
  discriminate H.
Qed.

Lemma ifc_other_cases et :
  ifc_type_get et = Some OTHER -> et = "IfcCovering" \/ et = "IfcBuildingElementProxy".
Proof.
  unfold ifc_type_get. cbn. intros H.
  repeat match type of H with
         | context [String.eqb et ?k] =>
             let E := fresh "E" in
             destruct (String.eqb et k) eqn:E;
             [apply String.eqb_eq in E; subst et;
              first [discriminate H | left; reflexivity | right; reflexivity]|]
         end.
  discriminate H.
Qed.

(** X3: on the classify endpoint, a Revit request whose [category_id] is a
    code of [REVIT_CATEGORY_MAPPING] is classified, when its key is not
    cached yet, as that code's category with confidence 1.0 and method
    "revit_category_mapping", whatever its name, properties and family:
    [str(category_id)] is read back by [int()]. *)
Theorem classify_element_known_revit_code c req z cat :
  lower (req_file_type req) = "revit" ->
  req_category_id req = Some z ->
  revit_category_get z = Some cat ->
  c !! revit_cache_key (Some z) (req_category_name req) (req_family_name req) = None ->
  classify_element_response c req =
    (Ok (mkClassificationResponse cat 1 "revit_category_mapping" 1),
     <[revit_cache_key (Some z) (req_category_name req) (req_family_name req) := cat]> c).
Proof.
  intros Hft Hid Hcat Hmiss.
  pose proof (revit_code_cases z cat Hcat) as Hin.
  unfold classify_element_response. rewrite Hft, Hid. cbv zeta.
  change (String.eqb "revit" "ifc") with false. change (String.eqb "revit" "revit") with true.
  cbv iota. unfold classify_revit_element. cbv zeta. rewrite Hmiss, Hcat.
  apply pair_fst_eq.
  destruct (props_given (req_properties req)) eqn:Hp;
  repeat (destruct Hin as [Hin|Hin]; [injection Hin as <- <-; unfold get_classification_confidence, get_classification_metadata; rewrite ?Hp; vm_compute; reflexivity|]);
  destruct Hin.
Qed.

Lemma ascii_lower_idem c : ascii_lower (ascii_lower c) = ascii_lower c.
Proof. destruct c as [[] [] [] [] [] [] [] []]; reflexivity. Qed.

Lemma lower_idem s : lower (lower s) = lower s.
Proof. induction s as [|c s IH]; cbn; [reflexivity|]. by rewrite ascii_lower_idem, IH. Qed.

Lemma lower_empty s : String.eqb (lower s) "" = String.eqb s "".
Proof. by destruct s. Qed.

(** X4: name and property classification ignore letter case: a name and
    its lower-cased form, or properties and the same properties with
    their string values lower-cased, get the same category. *)
Theorem keyword_classification_ignores_case (name : string) (properties : props) :
  _classify_by_name (lower name) = _classify_by_name name /\
  _classify_by_properties
    (map (fun kv => (kv.1, match kv.2 with VStr s => VStr (lower s) | v => v end))
         properties) = _classify_by_properties properties.
Proof.
  split.
  - unfold _classify_by_name. by rewrite lower_empty, lower_idem.
  - unfold _classify_by_properties, property_text. f_equal. f_equal.
    induction properties as [|[k v] t IH]; [reflexivity|].
    cbn [map]. unfold filter at 1 2. cbn [list_filter fst snd].
    destruct v as [s| | | |]; cbn [py_truthy py_str];
      rewrite ?lower_empty;
      match goal with |- context [@decide ?p ?d] => destruct (@decide p d) end;
      cbn [map fst snd py_str]; rewrite ?lower_idem; first [exact IH | f_equal; exact IH].
Qed.

(** X5: [get_classification_confidence] only ever returns 0.5, 0.7 or 1.0;
    in particular never 0.0. *)
Theorem confidence_in_three_levels element_type category properties :
  get_classification_confidence element_type category properties = (1 # 2)%Q \/
  get_classification_confidence element_type category properties = (7 # 10)%Q \/
  get_classification_confidence element_type category properties = 1%Q.
Proof.
  unfold get_classification_confidence. cbv zeta.
  destruct (ifc_type_get element_type) as [c|]; [destruct (cat_eqb c category)|]; simpl;
    (destruct (py_int element_type) as [z|];
       [destruct (revit_category_get z) as [c'|]; [destruct (cat_eqb c' category)|]|]);
    destruct (props_given properties),
      (cat_eqb (_classify_by_properties (the_props properties)) category);
    cbn; tauto.
Qed.

(** X6: for an IFC request whose type is a key of [IFC_TYPE_MAPPING] mapped
    to OTHER (IfcCovering, IfcBuildingElementProxy) and whose properties
    select a category, the classify endpoint answers that category with
    confidence 0.7 while its metadata reports method "ifc_type_mapping"
    with confidence 1.0 (on a cache miss). *)
Theorem classify_element_metadata_overstates c req cat :
  lower (req_file_type req) = "ifc" ->
  ifc_type_get (req_element_type req) = Some OTHER ->
  props_given (req_properties req) = true ->
  _classify_by_properties (the_props (req_properties req)) = cat ->
  cat <> OTHER ->
  c !! ifc_cache_key (req_element_type req) (req_family_name req) = None ->
  classify_element_response c req =
    (Ok (mkClassificationResponse cat (7 # 10) "ifc_type_mapping" 1),
     <[ifc_cache_key (req_element_type req) (req_family_name req) := cat]> c).
Proof.
  intros Hft Hget Hpg Hcp Hne Hmiss.
  assert (Hneq : cat_eqb cat OTHER = false) by (apply bool_decide_eq_false; exact Hne).
  assert (Hrefl : cat_eqb cat cat = true) by (apply bool_decide_eq_true; reflexivity).
  assert (Hother : cat_eqb OTHER cat = false)
    by (apply bool_decide_eq_false; intros H; apply Hne; symmetry; exact H).
  unfold classify_element_response. rewrite Hft. cbv zeta.
  change (String.eqb "ifc" "ifc") with true. change (String.eqb "ifc" "revit") with false.
  cbv iota. unfold classify_ifc_element. cbv zeta. rewrite Hmiss, Hget.
  change (negb (cat_eqb OTHER OTHER)) with false. cbv iota.
  rewrite Hpg, Hcp, Hneq. cbv iota.
  assert (Het : match req_category_id req with
                | Some z => if false then pretty z else req_element_type req
                | None => req_element_type req end = req_element_type req)
    by (destruct (req_category_id req); reflexivity).
  rewrite Het.
  unfold get_classification_confidence, get_classification_metadata.
  cbn [negb]. cbv iota beta.
  rewrite Hget, Hother, Hpg, Hcp, Hrefl.
  apply pair_fst_eq.
  destruct (ifc_other_cases _ Hget) as [He|He]; rewrite He; vm_compute; reflexivity.
Qed.

Lemma classify_element_known_revit_code_witness :
  classify_element_response ∅ revit_wall_request =
    (Ok (mkClassificationResponse WALL 1 "revit_category_mapping" 1),
     <[revit_cache_key (Some (-2000011)%Z) None None := WALL]> ∅).
Proof.
  apply (classify_element_known_revit_code ∅ revit_wall_request (-2000011)%Z WALL);
    vm_compute; reflexivity.
Defined.

Lemma classify_element_metadata_overstates_witness :
  classify_element_response ∅ proxy_beam_request =
    (Ok (mkClassificationResponse BEAM (7 # 10) "ifc_type_mapping" 1),
     <[ifc_cache_key "IfcBuildingElementProxy" None := BEAM]> ∅).
Proof.
  apply (classify_element_metadata_overstates ∅ proxy_beam_request BEAM);
    [vm_compute; reflexivity .. | discriminate | vm_compute; reflexivity].
Defined.

End ClassifierExtra.

Module EndpointExtra.
Import Main JobFacts Endpoints.

Lemma replace_go_absent f old new t :
  str_in old t = false -> replace_go f old new t = t.
Proof.
  revert t. induction f as [|f IH]; intros [|c t] H; [reflexivity..|].
  cbn in H |- *. apply orb_false_iff in H as [Hp Hin].
  rewrite Hp. by rewrite IH.
Qed.

Lemma substring_all t : substring 0 (String.length t) t = t.
Proof. induction t as [|c t IH]; cbn; [reflexivity|]. by rewrite IH. Qed.

Lemma prefix_app old t : String.prefix old (old ++ t) = true.
Proof.
  induction old as [|c old IH]; [by destruct t|].
  change (String c old ++ t) with (String c (old ++ t)). cbn.
  destruct (ascii_dec c c) as [_|]; [exact IH|congruence].
Qed.

Lemma length_app old t : String.length (old ++ t) = String.length old + String.length t.
Proof.
  induction old as [|c old IH]; [reflexivity|].
  change (String c old ++ t) with (String c (old ++ t)). cbn. by rewrite IH.
Qed.

Lemma substring_app old t : substring (String.length old) (String.length t) (old ++ t) = t.
Proof.
  induction old as [|c old IH]; [apply substring_all|].
  change (String c old ++ t) with (String c (old ++ t)). exact IH.
Qed.

(** One step of [str.replace] on a string that starts with [old]. *)
Lemma replace_go_prefix f old new t :
  old <> "" ->
  replace_go (S f) old new (old ++ t) = new ++ replace_go f old new (substring (String.length old) (String.length t) (old ++ t)).
Proof.
  intros Hne. destruct old as [|c old]; [congruence|].
  change (String c old ++ t) with (String c (old ++ t)).
  cbn [replace_go].
  change (String c (old ++ t)) with (String c old ++ t).
  rewrite prefix_app, length_app. do 3 f_equal. lia.
Qed.

(** X7: a header "Bearer " followed by a token of at least ten characters
    that does not itself contain "Bearer " is accepted by [verify_token],
    which returns exactly that token. *)
Theorem verify_token_bearer_roundtrip (t : string) :
  str_in "Bearer " t = false ->
  (10 <= String.length t)%nat ->
  verify_token (Some ("Bearer " ++ t)) = Ok t.
Proof.
  intros Hin Hlen. unfold verify_token, str_replace.
  cbv beta iota zeta delta [ElementClassifier.the_str opt_str_truthy].
  rewrite prefix_app, length_app.
  change (String.length "Bearer ") with (S 6). cbn [Nat.add].
  rewrite replace_go_prefix by discriminate.
  change (String.append "" ?x) with x. rewrite substring_app.
  rewrite replace_go_absent by exact Hin.
  destruct t as [|c t]; [cbn in Hlen; lia|].
  change (String.eqb ("Bearer " ++ String c t) "") with false.
  cbn [String.eqb orb negb]. replace (Nat.ltb (String.length (String c t)) 10) with false
    by (symmetry; apply Nat.ltb_ge; exact Hlen).
  reflexivity.
Qed.

(** X8: [verify_token] either raises an HTTP 401, or accepts a header that
    is present and starts with "Bearer " and returns a token of at least
    ten characters. *)
Theorem verify_token_outcomes (authorization : option string) :
  match verify_token authorization with
  | Ok token => exists a, authorization = Some a /\
                  String.prefix "Bearer " a = true /\ (10 <= String.length token)%nat
  | Raise e => exists msg, e = HTTPException 401 msg
  end.
Proof.
  unfold verify_token.
  destruct (negb (opt_str_truthy authorization)) eqn:Ht; [eexists; reflexivity|].
  destruct authorization as [a|]; [|discriminate Ht]. cbn [ElementClassifier.the_str].
  destruct (String.prefix "Bearer " a) eqn:Hp; cbn [negb]; [|eexists; reflexivity].
  destruct (String.eqb _ "" || _)%bool eqn:Hl; [eexists; reflexivity|].
  apply orb_false_iff in Hl as [_ Hl]. apply Nat.ltb_ge in Hl.
  exists a. auto.
Qed.

Lemma verify_token_bearer_roundtrip_witness :
  verify_token (Some ("Bearer " ++ "abcdefghijkl")) = Ok "abcdefghijkl".
Proof. apply verify_token_bearer_roundtrip; vm_compute; [reflexivity | lia]. Defined.

(** A successful [upload_bim_model], with the job it creates. *)
Lemma upload_ok_job env project_id file_path file_type s mid s1 :
  upload_bim_model env project_id file_path file_type s = (Ok mid, s1) ->
  (String.eqb (lower file_type) "revit" || String.eqb (lower file_type) "ifc")%bool = true /\
  path_exists env file_path = true /\
  exists file_size,
    sv_jobs s1 = <[mid := mkJob mid project_id (basename file_path) file_size
                      (lower file_type) file_path PROCESSING 0 None 0 (utc_now env) None]>
                 (sv_jobs s).
Proof.
  unfold upload_bim_model, try_except, bind, put_job, lift, ret, raise, run_proc, uuid4.
  destruct (String.eqb (lower file_type) "revit" || String.eqb (lower file_type) "ifc")%bool;
    cbn [negb]; [|cbn; congruence].
  destruct (path_exists env file_path); cbn [negb]; [|cbn; congruence].
  cbn. destruct (path_size env file_path) as [sz|e]; cbn; [|destruct e; cbn; congruence].
  intros H. injection H as <- <-. cbn. split; [reflexivity|]. split; [reflexivity|].
  eexists. reflexivity.
Qed.

(** X9: right after a successful upload, [get_processing_status] of the new
    model id answers status PROCESSING, progress 0, no element processed,
    no error, [created_at] the upload time and no completion time, and
    changes nothing. *)
Theorem status_after_upload env project_id file_path file_type s mid s1 :
  upload_bim_model env project_id file_path file_type s = (Ok mid, s1) ->
  get_processing_status mid s1 =
    (Ok (mkStatusResponse mid PROCESSING 0 0 None (Some (utc_now env)) None), s1).
Proof.
  intros H. apply upload_ok_job in H as (_ & _ & sz & Hj).
  unfold get_processing_status. rewrite Hj, lookup_insert_eq. reflexivity.
Qed.

Lemma status_after_upload_witness :
  get_processing_status "uuid-0" Demo.ifc_uploaded =
    (Ok (mkStatusResponse "uuid-0" PROCESSING 0 0 None
           (Some "2026-01-01T00:00:00+00:00") None), Demo.ifc_uploaded).
Proof.
  apply (status_after_upload Demo.env "p1" "/data/model.ifc" "IFC" Demo.empty_service).
  vm_compute. reflexivity.
Defined.

(** X10: [upload_bim_model] either creates a job whose file type has a
    processor ("revit" or "ifc", so [process_bim_model] never answers 400
    "Unsupported file type" for it), or fails with a 400 for an unsupported
    type or a 404 for a missing file, creating no job and logging no write,
    or fails with a 500 "Upload error: <message>" when the file system
    raises (an error of [Path.exists()] or [stat()]). *)
Theorem upload_outcomes env project_id file_path file_type s :
  match upload_bim_model env project_id file_path file_type s with
  | (Ok mid, s1) => exists job p, sv_jobs s1 !! mid = Some job /\
                      select_processor env (j_file_type job) = Some p
  | (Raise e, s1) =>
      ((e = HTTPException 400 ("Unsupported file type: " ++ file_type
                               ++ ". Must be 'revit' or 'ifc'") \/
        e = HTTPException 404 ("File not found: " ++ file_path)) /\
       sv_jobs s1 = sv_jobs s /\ sv_log s1 = sv_log s) \/
      (exists msg, e = HTTPException 500 ("Upload error: " ++ msg))
  end.
Proof.
  destruct (upload_bim_model env project_id file_path file_type s) as [[mid|e] s1] eqn:H.
  - apply upload_ok_job in H as (Ht & _ & sz & Hj).
    assert (Hs : exists p, select_processor env (lower file_type) = Some p).
    { unfold select_processor.
      destruct (String.eqb (lower file_type) "ifc") eqn:Hi; [eexists; reflexivity|].
      apply orb_true_iff in Ht as [Ht|Ht]; [rewrite Ht; eexists; reflexivity|congruence]. }
    destruct Hs as [p Hp].
    rewrite Hj, lookup_insert_eq. eexists _, p. split; [reflexivity | exact Hp].
  - left. revert H.
    unfold upload_bim_model, try_except, bind, put_job, lift, ret, raise, run_proc, uuid4.
    destruct (negb _); [cbn; intros H; injection H as <- <-; auto 6|].
    unfold path_exists, path_size.
    destruct (env_fs env file_path); cbn; [congruence|].
    intros H; injection H as <- <-; auto 6.
Qed.

(** X11: for a model id that is not in the store, both [process_bim_model]
    (with any processor selection) and [get_processing_status] raise the
    HTTP 404 "Model not found: <id>" and change nothing. *)
Theorem unknown_model_not_found select now mid s :
  sv_jobs s !! mid = None ->
  process_with select now mid s =
    (Raise (HTTPException 404 ("Model not found: " ++ mid)), s) /\
  get_processing_status mid s =
    (Raise (HTTPException 404 ("Model not found: " ++ mid)), s).
Proof.
  intros Hj. unfold process_with, get_processing_status, try_except, bind, get_jobs, raise.
  rewrite Hj. split; reflexivity.
Qed.

Lemma unknown_model_not_found_witness :
  process_bim_model Demo.env "uuid-7" Demo.ifc_uploaded =
    (Raise (HTTPException 404 ("Model not found: " ++ "uuid-7")), Demo.ifc_uploaded) /\
  get_processing_status "uuid-7" Demo.ifc_uploaded =
    (Raise (HTTPException 404 ("Model not found: " ++ "uuid-7")), Demo.ifc_uploaded).
Proof.
  apply (unknown_model_not_found (select_processor Demo.env) (utc_now Demo.env)).
  vm_compute. reflexivity.
Defined.

Ltac isolation_end H :=
  injection H as _ <-; cbn;
  split; [rewrite ?lookup_insert_ne by congruence; reflexivity|];
  rewrite <- ?app_assoc; eexists; split; [reflexivity|]; cbn [app]; repeat constructor.

(** X12: [process_bim_model] on model [mid] touches no other job: every
    other id keeps its entry, and each write it appends to the store's
    history is a write to [mid]; this holds on success and on every error
    path. *)
Theorem process_isolated select now mid s r s' k :
  process_with select now mid s = (r, s') ->
  k <> mid ->
  sv_jobs s' !! k = sv_jobs s !! k /\
  exists rest, sv_log s' = app (sv_log s) rest /\ Forall (fun e => e.1 = mid) rest.
Proof.
  intros H Hk. unfold_process H.
  destruct (sv_jobs s !! mid) as [job|] eqn:Hj;
    [|cbn in H; injection H as _ <-; split; [reflexivity|];
      exists []; rewrite app_nil_r; split; [reflexivity|constructor]].
  run_in H.
  destruct (select (j_file_type job)) as [p|]; [|run_in H; isolation_end H].
  run_in H.
  destruct (validate_file_of p (j_file_path job)) as [[[|] msg]|e]; run_in H.
  3:{ destruct e; run_in H; isolation_end H. }
  2:{ isolation_end H. }
  destruct (extract_elements_of p (j_file_path job) mid (sv_proc s))
    as [[els0|e] ps'] eqn:He; run_in H.
  2:{ destruct e; run_in H; isolation_end H. }
  destruct (get_project_info_of p (j_file_path job)) as [info|e];
    run_in H; [|destruct e; run_in H; isolation_end H].
  destruct (get_software_version_of p (j_file_path job)) as [ver|e];
    run_in H; [|destruct e; run_in H; isolation_end H].
  isolation_end H.
Qed.

Lemma process_isolated_witness :
  sv_jobs Demo.ifc_processed !! "uuid-9" = sv_jobs Demo.ifc_uploaded !! "uuid-9" /\
  exists rest, sv_log Demo.ifc_processed = app (sv_log Demo.ifc_uploaded) rest /\
               Forall (fun e => e.1 = "uuid-0") rest.
Proof.
  apply (process_isolated (select_processor Demo.env) (utc_now Demo.env) "uuid-0"
           Demo.ifc_uploaded Demo.ifc_result Demo.ifc_processed "uuid-9");
    [vm_compute; reflexivity | discriminate].
Defined.

(** X13: when the selected processor rejects the job's file,
    [process_bim_model] raises the HTTP 400 "Invalid file: <message>" and
    leaves the job with status ERROR, progress 20 and the validator's
    message; the extractor never runs, so the processors' state (cache,
    identifiers) is untouched. *)
Theorem invalid_file_marks_error select now mid s job p msg :
  sv_jobs s !! mid = Some job ->
  select (j_file_type job) = Some p ->
  validate_file_of p (j_file_path job) = Ok (false, msg) ->
  fst (process_with select now mid s) =
    Raise (HTTPException 400 ("Invalid file: " ++ opt_str msg)) /\
  sv_jobs (snd (process_with select now mid s)) !! mid =
    Some (set_error_message msg (set_status ERROR (set_progress 20
      (set_progress 10 (set_status PROCESSING job))))) /\
  sv_proc (snd (process_with select now mid s)) = sv_proc s.
Proof.
  intros Hj Hp Hv.
  destruct (process_with select now mid s) as [r s'] eqn:H.
  unfold_process H. run_in H. injection H as <- <-. cbn.
  split; [reflexivity|]. split; [by rewrite lookup_insert_eq|reflexivity].
Qed.

Lemma invalid_file_marks_error_witness :
  fst (process_with (select_processor Demo.env) (utc_now Demo.env) "m-1"
         Demo.missing_job_service) =
    Raise (HTTPException 400 ("Invalid file: " ++ opt_str (Some "File not found: /data/gone.ifc"))) /\
  sv_jobs (snd (process_with (select_processor Demo.env) (utc_now Demo.env) "m-1"
                  Demo.missing_job_service)) !! "m-1" =
    Some (set_error_message (Some "File not found: /data/gone.ifc")
      (set_status ERROR (set_progress 20 (set_progress 10
        (set_status PROCESSING Demo.missing_job))))) /\
  sv_proc (snd (process_with (select_processor Demo.env) (utc_now Demo.env) "m-1"
                  Demo.missing_job_service)) = sv_proc Demo.missing_job_service.
Proof.
  apply (invalid_file_marks_error (select_processor Demo.env) (utc_now Demo.env) "m-1"
           Demo.missing_job_service Demo.missing_job (ifc_processor Demo.env)
           (Some "File not found: /data/gone.ifc")); reflexivity.
Defined.

End EndpointExtra.

Module EndpointFileExtra.
Import Main Endpoints ProcessorFacts.

Lemma ifc_valid_opens env file_path :
  fst (IFCProcessor.validate_file env file_path) = true ->
  exists ifc_file, ifcopenshell_open env file_path = Ok ifc_file.
Proof.
  unfold IFCProcessor.validate_file.
  destruct (negb (IFCOPENSHELL_AVAILABLE env)); [discriminate|].
  destruct (env_fs env file_path) as [st|]; [|discriminate].
  destruct (negb (fs_is_file st)); [discriminate|].
  destruct (Z.eqb (fs_size st) 0); [discriminate|].
  destruct (negb (IFCProcessor.can_process file_path)); [discriminate|].
  destruct (ifcopenshell_open env file_path) as [f|]; [eauto|discriminate].
Qed.

Lemma revit_info_version_ok env file_path :
  fst (RevitProcessor.validate_file env file_path) = true ->
  (exists info, RevitProcessor.get_project_info env file_path = Ok info) /\
  (exists v, RevitProcessor.get_software_version env file_path = Ok v).
Proof.
  intros Hv. destruct (revit_valid_exists env file_path Hv) as [st Hfs].
  destruct (revit_metadata_ok env file_path st Hfs) as [md Hmd].
  unfold RevitProcessor.get_project_info, RevitProcessor.get_software_version.
  rewrite Hmd. split; eexists; reflexivity.
Qed.

(** X14: the [process_revit_file] endpoint answers every file that
    [RevitProcessor.validate_file] accepts with a response for the given
    model id holding six elements, of categories wall, floor, column, beam,
    door and window, whatever the file's content. *)
Theorem process_revit_file_valid env file_path model_id ps :
  fst (RevitProcessor.validate_file env file_path) = true ->
  exists resp ps',
    process_revit_file env file_path model_id ps = (Ok resp, ps') /\
    fr_model_id resp = model_id /\ fr_elements_count resp = 6%Z /\
    map el_category (fr_elements resp) = [WALL; FLOOR; COLUMN; BEAM; DOOR; WINDOW].
Proof.
  intros Hv.
  destruct (revit_info_version_ok env file_path Hv) as [[info Hi] [v Hver]].
  destruct (revit_samples_ok model_id file_path ps) as (els & ps' & Hs & Hc).
  pose proof (revit_extract_valid env file_path model_id ps Hv) as He.
  rewrite Hs in He.
  unfold process_revit_file, process_file, try_except, bind, lift, ret, raise.
  cbn [validate_file_of extract_elements_of get_project_info_of get_software_version_of
       revit_processor].
  destruct (RevitProcessor.validate_file env file_path) as [b msg]. cbn in Hv. subst b.
  cbn [negb]. rewrite He, Hi, Hver.
  eexists _, _. split; [reflexivity|]. cbn.
  split; [reflexivity|]. split; [|exact Hc].
  apply (f_equal (@length _)) in Hc. rewrite length_map in Hc. cbn in Hc. by rewrite Hc.
Qed.

Lemma process_revit_file_valid_witness :
  exists resp ps',
    process_revit_file Demo.env "/data/model.rvt" "uuid-0" (mkPSt empty 0) = (Ok resp, ps') /\
    fr_model_id resp = "uuid-0" /\ fr_elements_count resp = 6%Z /\
    map el_category (fr_elements resp) = [WALL; FLOOR; COLUMN; BEAM; DOOR; WINDOW].
Proof. apply process_revit_file_valid. vm_compute. reflexivity. Defined.

(** X15: the [process_ifc_file] endpoint answers every file that
    [IFCProcessor.validate_file] accepts (such a file opens) with a response
    for the given model id whose elements are those of the building
    entities [element_ok] accepts, in order, and whose [elements_count] is
    their number: failing entities are dropped, never turned into a 422 or
    a 500. *)
Theorem process_ifc_file_valid env file_path model_id ps :
  fst (IFCProcessor.validate_file env file_path) = true ->
  exists ifc_file resp ps',
    ifcopenshell_open env file_path = Ok ifc_file /\
    process_ifc_file env file_path model_id ps = (Ok resp, ps') /\
    fr_model_id resp = model_id /\
    map el_external_id (fr_elements resp) =
      map GlobalId (List.filter (IFCProcessor.element_ok env)
                      (IFCProcessor._get_building_elements ifc_file)) /\
    fr_elements_count resp =
      Z.of_nat (length (List.filter (IFCProcessor.element_ok env)
                          (IFCProcessor._get_building_elements ifc_file))).
Proof.
  intros Hv.
  destruct (ifc_valid_opens env file_path Hv) as [f Ho].
  destruct (ifc_extract_ok env file_path model_id f ps Hv Ho) as (l & ps' & He & Hids).
  destruct (ifc_project_info_ok env file_path) as [info Hi].
  destruct (ifc_software_version_ok env file_path) as [v Hver].
  unfold process_ifc_file, process_file, try_except, bind, lift, ret, raise.
  cbn [validate_file_of extract_elements_of get_project_info_of get_software_version_of
       ifc_processor].
  destruct (IFCProcessor.validate_file env file_path) as [b msg] eqn:Hvf.
  cbn in Hv. subst b. cbn [negb]. rewrite He, Hi, Hver.
  exists f. eexists _, _. split; [exact Ho|]. split; [reflexivity|]. cbn.
  split; [reflexivity|]. split; [exact Hids|].
  apply (f_equal (@length _)) in Hids. rewrite !length_map in Hids. by rewrite Hids.
Qed.

Lemma process_ifc_file_valid_witness :
  exists ifc_file resp ps',
    ifcopenshell_open Demo.env "/data/model.ifc" = Ok ifc_file /\
    process_ifc_file Demo.env "/data/model.ifc" "uuid-0" (mkPSt empty 0) = (Ok resp, ps') /\
    fr_model_id resp = "uuid-0" /\
    map el_external_id (fr_elements resp) =
      map GlobalId (List.filter (IFCProcessor.element_ok Demo.env)
                      (IFCProcessor._get_building_elements ifc_file)) /\
    fr_elements_count resp =
      Z.of_nat (length (List.filter (IFCProcessor.element_ok Demo.env)
                          (IFCProcessor._get_building_elements ifc_file))).
Proof. apply process_ifc_file_valid. vm_compute. reflexivity. Defined.

(** X16: both file endpoints answer a file their processor's
    [validate_file] rejects with the HTTP 400 "Invalid Revit file: <reason>"
    or "Invalid IFC file: <reason>", where the reason is the validator's
    message, and change no state. *)
Theorem process_file_invalid env file_path model_id ps :
  (fst (RevitProcessor.validate_file env file_path) = false ->
   process_revit_file env file_path model_id ps =
     (Raise (HTTPException 400 ("Invalid Revit file: "
        ++ opt_str (snd (RevitProcessor.validate_file env file_path)))), ps)) /\
  (fst (IFCProcessor.validate_file env file_path) = false ->
   process_ifc_file env file_path model_id ps =
     (Raise (HTTPException 400 ("Invalid IFC file: "
        ++ opt_str (snd (IFCProcessor.validate_file env file_path)))), ps)).
Proof.
  unfold process_revit_file, process_ifc_file, process_file, try_except, bind, lift, raise.
  cbn [validate_file_of revit_processor ifc_processor].
  split; intros Hv.
  - destruct (RevitProcessor.validate_file env file_path) as [b msg].
    cbn in Hv. subst b. reflexivity.
  - destruct (IFCProcessor.validate_file env file_path) as [b msg].
    cbn in Hv. subst b. reflexivity.
Qed.

Lemma process_file_invalid_witness :
  process_revit_file Demo.env "/data/gone.rvt" "uuid-0" (mkPSt empty 0) =
    (Raise (HTTPException 400 ("Invalid Revit file: " ++ "File not found: /data/gone.rvt")),
     mkPSt empty 0) /\
  process_ifc_file Demo.env "/data/model.rvt" "uuid-0" (mkPSt empty 0) =
    (Raise (HTTPException 400 ("Invalid IFC file: "
       ++ "Not a valid IFC file (must have .ifc extension)")), mkPSt empty 0).
Proof.
  split.
  - apply (proj1 (process_file_invalid Demo.env "/data/gone.rvt" "uuid-0" (mkPSt empty 0))).
    vm_compute. reflexivity.
  - apply (proj2 (process_file_invalid Demo.env "/data/model.rvt" "uuid-0" (mkPSt empty 0))).
    vm_compute. reflexivity.
Defined.

End EndpointFileExtra.

Module ProcessorExtra.
Import Main ProcessorFacts.

Ltac rej := cbv iota beta; eexists; reflexivity.

(** X17: each processor's [validate_file] gives a message exactly when it
    rejects the file; it accepts only an existing regular, non-empty file
    with the processor's extension, and for IFC only when IfcOpenShell is
    available and the file opens with a non-empty schema. *)
Theorem validate_file_verdicts env file_path :
  match IFCProcessor.validate_file env file_path with
  | (true, msg) =>
      msg = None /\ IFCOPENSHELL_AVAILABLE env = true /\
      (exists st, env_fs env file_path = Some st /\ fs_is_file st = true /\
                  fs_size st <> 0%Z) /\
      IFCProcessor.can_process file_path = true /\
      exists f, ifcopenshell_open env file_path = Ok f /\ schema f <> ""
  | (false, msg) => exists m, msg = Some m
  end /\
  match RevitProcessor.validate_file env file_path with
  | (true, msg) =>
      msg = None /\
      (exists st, env_fs env file_path = Some st /\ fs_is_file st = true /\
                  fs_size st <> 0%Z) /\
      RevitProcessor.can_process env file_path = true
  | (false, msg) => exists m, msg = Some m
  end.
Proof.
  split.
  - unfold IFCProcessor.validate_file.
    destruct (IFCOPENSHELL_AVAILABLE env); cbn [negb]; [|rej].
    destruct (env_fs env file_path) as [st|]; [|rej].
    destruct (fs_is_file st) eqn:Hf; cbn [negb]; [|rej].
    destruct (Z.eqb (fs_size st) 0) eqn:Hz; [rej|].
    destruct (IFCProcessor.can_process file_path) eqn:Hc; cbn [negb]; [|rej].
    destruct (ifcopenshell_open env file_path) as [f|e]; [|rej].
    destruct (String.eqb (schema f) "") eqn:Hs; [rej|].
    apply Z.eqb_neq in Hz. apply String.eqb_neq in Hs.
    split; [reflexivity|]. split; [reflexivity|]. split; [exists st; auto|].
    split; [reflexivity|]. exists f; auto.
  - unfold RevitProcessor.validate_file.
    destruct (env_fs env file_path) as [st|]; [|rej].
    destruct (fs_is_file st) eqn:Hf; cbn [negb]; [|rej].
    destruct (Z.eqb (fs_size st) 0) eqn:Hz; [rej|].
    destruct (RevitProcessor.can_process env file_path) eqn:Hc; cbn [negb]; [|rej].
    apply Z.eqb_neq in Hz. split; [reflexivity|]. split; [exists st; auto|reflexivity].
Qed.

(** X18: both processors' [extract_elements] raise their own file error,
    carrying the validator's message, on a file that [validate_file]
    rejects, before touching any state. *)
Theorem extract_rejected_file env file_path model_id ps :
  (fst (IFCProcessor.validate_file env file_path) = false ->
   IFCProcessor.extract_elements env file_path model_id ps =
     (Raise (IFCFileError (opt_str (snd (IFCProcessor.validate_file env file_path)))), ps)) /\
  (fst (RevitProcessor.validate_file env file_path) = false ->
   RevitProcessor.extract_elements env file_path model_id ps =
     (Raise (RevitFileError (opt_str (snd (RevitProcessor.validate_file env file_path)))), ps)).
Proof.
  split; intros Hv.
  - unfold IFCProcessor.extract_elements.
    destruct (IFCOPENSHELL_AVAILABLE env) eqn:Ha; cbn [negb].
    + destruct (IFCProcessor.validate_file env file_path) as [b msg].
      cbn in Hv. subst b. reflexivity.
    + unfold IFCProcessor.validate_file. rewrite Ha. reflexivity.
  - unfold RevitProcessor.extract_elements.
    destruct (RevitProcessor.validate_file env file_path) as [b msg].
    cbn in Hv. subst b. reflexivity.
Qed.

Lemma extract_rejected_file_witness :
  IFCProcessor.extract_elements Demo.env "/data/model.rvt" "uuid-0" (mkPSt empty 0) =
    (Raise (IFCFileError "Not a valid IFC file (must have .ifc extension)"), mkPSt empty 0) /\
  RevitProcessor.extract_elements Demo.env "/data/model.ifc" "uuid-0" (mkPSt empty 0) =
    (Raise (RevitFileError "Not a valid Revit file format"), mkPSt empty 0).
Proof.
  split.
  - apply (proj1 (extract_rejected_file Demo.env "/data/model.rvt" "uuid-0" (mkPSt empty 0))).
    vm_compute. reflexivity.
  - apply (proj2 (extract_rejected_file Demo.env "/data/model.ifc" "uuid-0" (mkPSt empty 0))).
    vm_compute. reflexivity.
Defined.

End ProcessorExtra.

Module GeometryExtra.
Import GeometryClaims.

Lemma triples_length {A} : forall (xs : list A) ts,
  IFCProcessor.triples xs = Some ts -> (3 * length ts = length xs)%nat.
Proof.
  fix IH 1. intros [|a [|b [|c t]]] ts H; cbn in H; try discriminate.
  - injection H as <-. reflexivity.
  - destruct (IFCProcessor.triples t) as [ts'|] eqn:E; cbn in H; [|discriminate].
    injection H as <-. specialize (IH t ts' E). cbn. lia.
Qed.

(** X19: a geometry that [_extract_geometry] returns is a SOLID with one
    vertex per three coordinates and one face per three indices of the
    shape's flat buffers, every face a triangle, and the bounding box
    [_calculate_bounding_box] of exactly those vertices. *)
Theorem extract_geometry_shape env ie g :
  IFCProcessor._extract_geometry env ie = Some g ->
  exists verts faces_data,
    ie_shape ie = Ok (verts, faces_data) /\
    (3 * length (g_vertices g) = length verts)%nat /\
    (3 * length (g_faces g) = length faces_data)%nat /\
    Forall (fun f => length f = 3%nat) (g_faces g) /\
    g_type g = SOLID /\
    g_bounding_box g = _calculate_bounding_box (NUMPY_AVAILABLE env) (g_vertices g).
Proof.
  unfold IFCProcessor._extract_geometry.
  destruct (ie_shape ie) as [[verts faces_data]|e]; [|discriminate].
  destruct (IFCProcessor.triples verts) as [vs|] eqn:Hv; [|discriminate].
  destruct (IFCProcessor.triples faces_data) as [fs|] eqn:Hf; [|discriminate].
  intros H. injection H as <-. exists verts, faces_data. cbn [g_vertices g_faces g_type g_bounding_box].
  split; [reflexivity|]. rewrite !length_map.
  split; [exact (triples_length _ _ Hv)|]. split; [exact (triples_length _ _ Hf)|].
  split; [|split; reflexivity].
  apply List.Forall_forall. intros f Hin. apply in_map_iff in Hin as ([[a b] c] & <- & _).
  reflexivity.
Qed.

Lemma extract_geometry_shape_witness :
  exists verts faces_data,
    ie_shape (Demo.wall 0 Demo.triangle_shape) = Ok (verts, faces_data) /\
    (3 * length [mkVec3 0 0 0; mkVec3 1 0 0; mkVec3 1 1 0] = length verts)%nat /\
    (3 * length [[0; 1; 2]%Z] = length faces_data)%nat /\
    Forall (fun f => length f = 3%nat) [[0; 1; 2]%Z] /\
    SOLID = SOLID /\
    _calculate_bounding_box true [mkVec3 0 0 0; mkVec3 1 0 0; mkVec3 1 1 0] =
      _calculate_bounding_box (NUMPY_AVAILABLE Demo.env)
        [mkVec3 0 0 0; mkVec3 1 0 0; mkVec3 1 1 0].
Proof.
  apply (extract_geometry_shape Demo.env (Demo.wall 0 Demo.triangle_shape)
           (mkGeometry SOLID (_calculate_bounding_box true
                                [mkVec3 0 0 0; mkVec3 1 0 0; mkVec3 1 1 0])
              [mkVec3 0 0 0; mkVec3 1 0 0; mkVec3 1 1 0] [[0; 1; 2]%Z])).
  reflexivity.
Defined.

(** X20: with and without numpy, [_calculate_bounding_box] gives the same
    box: on every axis the two minima are equal rationals, and so are the
    two maxima. *)
Theorem bounding_box_numpy_agrees (V : list Vec3) (i : axis) :
  Qeq (coord i (bb_min (_calculate_bounding_box true V)))
      (coord i (bb_min (_calculate_bounding_box false V))) /\
  Qeq (coord i (bb_max (_calculate_bounding_box true V)))
      (coord i (bb_max (_calculate_bounding_box false V))).
Proof.
  destruct V as [|v vs]; [split; reflexivity|].
  pose proof (axis_min_max true v vs i) as (Bt & (wt & Ht & Et) & (Wt & HWt & EWt)).
  pose proof (axis_min_max false v vs i) as (Bf & (wf & Hf & Ef) & (Wf & HWf & EWf)).
  cbv zeta in *. split; apply Qle_antisym.
  - rewrite Ef. apply (Bt wf Hf).
  - rewrite Et. apply (Bf wt Ht).
  - rewrite EWt. apply (Bf Wt HWt).
  - rewrite EWf. apply (Bt Wf HWf).
Qed.

Lemma Qle_addr a d : Qle 0 d -> Qle a (a + d).
Proof.
  intros H. rewrite <- (Qplus_0_r a) at 1. apply Qplus_le_compat; [apply Qle_refl | exact H].
Qed.

Lemma dimensions_nonneg category :
  Qle 0 (RevitProcessor.dimensions category).1.1 /\
  Qle 0 (RevitProcessor.dimensions category).1.2 /\
  Qle 0 (RevitProcessor.dimensions category).2.
Proof. destruct category; repeat split; apply Qle_bool_imp_le; reflexivity. Qed.

(** X21: the bounding box that [RevitProcessor._create_geometry_for_category]
    stores with a sample element is, on every axis and with or without
    numpy, equal to the box [_calculate_bounding_box] computes from the
    element's eight vertices. *)
Theorem revit_sample_bbox_tight (numpy : bool) category position (i : axis) :
  let g := RevitProcessor._create_geometry_for_category category position in
  Qeq (coord i (bb_min (g_bounding_box g)))
      (coord i (bb_min (_calculate_bounding_box numpy (g_vertices g)))) /\
  Qeq (coord i (bb_max (g_bounding_box g)))
      (coord i (bb_max (_calculate_bounding_box numpy (g_vertices g)))).
Proof.
  cbv zeta. destruct position as [[x y] z].
  pose proof (dimensions_nonneg category) as (Hx & Hy & Hz).
  unfold RevitProcessor._create_geometry_for_category.
  destruct (RevitProcessor.dimensions category) as [[dx dy] dz]. cbn in Hx, Hy, Hz.
  cbn [g_bounding_box g_vertices bb_min bb_max].
  match goal with |- context [_calculate_bounding_box numpy (?v :: ?vs)] =>
    pose proof (axis_min_max numpy v vs i) as (B & (w & Hw & E) & (W & HW & EW));
    assert (Hr : forall u, In u (v :: vs) ->
              Qle (coord i (mkVec3 x y z)) (coord i u) /\
              Qle (coord i u) (coord i (mkVec3 (x + dx) (y + dy) (z + dz))))
  end.
  { intros u Hu. destruct i; cbn in Hu;
      repeat destruct Hu as [<-|Hu]; try contradiction; cbn;
      split; first [apply Qle_refl | apply Qle_addr; assumption]. }
  cbv zeta in *. split; apply Qle_antisym.
  - rewrite E. exact (proj1 (Hr w Hw)).
  - apply (B (mkVec3 x y z)). left; reflexivity.
  - apply (B (mkVec3 (x + dx) (y + dy) (z + dz))). do 6 right; left; reflexivity.
  - rewrite EW. exact (proj2 (Hr W HW)).
Qed.

End GeometryExtra.

Module ProcessorInfoExtra.

(** X22: when IfcOpenShell is unavailable or the file does not open, the
    IFC processor's [get_project_info] returns an empty dict instead of
    raising, and [get_software_version] then answers
    "IFC (version unknown)". *)
Theorem ifc_info_fallback env file_path :
  (IFCOPENSHELL_AVAILABLE env = false \/
   exists e, ifcopenshell_open env file_path = Raise e) ->
  IFCProcessor.get_project_info env file_path = Ok [] /\
  IFCProcessor.get_software_version env file_path = Ok "IFC (version unknown)".
Proof.
  intros H.
  assert (Hi : IFCProcessor.get_project_info env file_path = Ok []).
  { unfold IFCProcessor.get_project_info.
    destruct H as [-> | [e He]]; [reflexivity|].
    destruct (negb (IFCOPENSHELL_AVAILABLE env)); [reflexivity|].
    unfold IFCProcessor.project_info_body. rewrite He. reflexivity. }
  split; [exact Hi|]. unfold IFCProcessor.get_software_version. rewrite Hi. reflexivity.
Qed.

Lemma ifc_info_fallback_witness :
  IFCProcessor.get_project_info Demo.env "/data/model.rvt" = Ok [] /\
  IFCProcessor.get_software_version Demo.env "/data/model.rvt" = Ok "IFC (version unknown)".
Proof.
  apply ifc_info_fallback. right.
  exists (OtherError ("Unable to open file " ++ "/data/model.rvt")). reflexivity.
Defined.

(** X23: without olefile, the Revit processor reports for an existing file
    the project name [Path(file_path).stem], an empty number and author, no
    dates, the file's size, and the version "Revit (version unknown)". *)
Theorem revit_info_without_olefile env file_path st :
  OLEFILE_AVAILABLE env = false ->
  env_fs env file_path = Some st ->
  RevitProcessor.get_project_info env file_path =
    Ok [("project_name", VStr (stem file_path)); ("project_number", VStr "");
        ("author", VStr ""); ("created", VNone); ("modified", VNone);
        ("file_size", VInt (fs_size st))] /\
  RevitProcessor.get_software_version env file_path = Ok "Revit (version unknown)".
Proof.
  intros Ho Hfs.
  unfold RevitProcessor.get_project_info, RevitProcessor.get_software_version,
    RevitProcessor._extract_file_metadata, path_size.
  rewrite Hfs, Ho. split; reflexivity.
Qed.

Lemma revit_info_without_olefile_witness :
  RevitProcessor.get_project_info Demo.env "/data/model.rvt" =
    Ok [("project_name", VStr (stem "/data/model.rvt")); ("project_number", VStr "");
        ("author", VStr ""); ("created", VNone); ("modified", VNone);
        ("file_size", VInt 2048)] /\
  RevitProcessor.get_software_version Demo.env "/data/model.rvt" = Ok "Revit (version unknown)".
Proof.
  apply (revit_info_without_olefile Demo.env "/data/model.rvt" (mkFileStat true 2048));
    reflexivity.
Defined.

End ProcessorInfoExtra.
